(** * Qik Office API: a shallow embedding of the request handlers

    The development follows [main.py] and [schemas.py].  Python dictionaries
    are finite maps from field names to values, the document store is a
    finite map from collection names to the records of each collection in
    insertion order, and a handler is a computation that reads and writes
    the module-level [db] handle and either returns or raises. *)

From Stdlib Require Import ZArith QArith Qcanon Ascii String List Lia.
From stdpp Require Import base option list strings gmap fin_maps numbers pretty.

Local Open Scope string_scope.
Local Open Scope Z_scope.
Local Open Scope list_scope.

(** ** Values *)

(** A [bson.ObjectId], represented by the text [str()] prints for it. *)
Record ObjectId := mkObjectId { oid_hex : string }.

(** [datetime.datetime]: calendar fields and the offset from UTC in seconds
    when the value is timezone-aware. *)
Record datetime := mkDatetime {
  dt_year : Z; dt_month : Z; dt_day : Z;
  dt_hour : Z; dt_minute : Z; dt_second : Z; dt_microsecond : Z;
  dt_utcoffset : option Z
}.

(** [datetime.date]. *)
Record date := mkDate { d_year : Z; d_month : Z; d_day : Z }.

(** The Python objects found in request bodies and stored documents. *)
Inductive value :=
  | VNone
  | VBool (b : bool)
  | VInt (n : Z)
  | VStr (s : string)
  | VStrList (l : list string)
  | VOid (o : ObjectId)
  | VDatetime (t : datetime)
  | VDate (t : date).

#[global] Instance ObjectId_eq_dec : EqDecision ObjectId.
Proof. solve_decision. Defined.
#[global] Instance datetime_eq_dec : EqDecision datetime.
Proof. solve_decision. Defined.
#[global] Instance date_eq_dec : EqDecision date.
Proof. solve_decision. Defined.
#[global] Instance value_eq_dec : EqDecision value.
Proof. solve_decision. Defined.

(** A Python [dict] with string keys. *)
Abbreviation dict := (gmap string value).

(** ** Exceptions and handler computations *)

Inductive exn :=
  | HTTPException (status_code : Z) (detail : string)
  | ValueError
  | ValidationError (field : string)
  | KeyError (key : string)
  | ZeroDivisionError
  | StoreUnavailable.

Inductive outcome (A : Type) :=
  | Return (a : A)
  | Raise (e : exn).
Arguments Return {A} a.
Arguments Raise {A} e.

(** How the web framework surfaces an exception that leaves a handler: an
    [HTTPException] carries its own status, and any other exception is
    answered with an internal server error. *)
Definition response_status (e : exn) : Z :=
  match e with
  | HTTPException c _ => c
  | _ => 500
  end.

Definition is_client_error (e : exn) : bool :=
  (400 <=? response_status e) && (response_status e <? 500).

(** ** The document store *)

(** A stored record: the store gives every record an [_id]; the remaining
    fields are the ones the application wrote. *)
Record record := mkRecord { _id : ObjectId; fields : gmap string value }.

#[global] Instance record_eq_dec : EqDecision record.
Proof. solve_decision. Defined.

(** The dictionary the driver hands back for a stored record. *)
Definition to_dict (r : record) : dict := <["_id" := VOid (_id r)]> (fields r).

(** A database: collection name to records, in insertion order. *)
Abbreviation database := (gmap string (list record)).

(** [db[name]]: a collection that was never written to is empty. *)
Definition collection (d : database) (name : string) : list record :=
  default [] (d !! name).

(** The conditions a query places on one field: [{"f": v}] and
    [{"f": {"$in": [...]}}]. *)
Inductive cond :=
  | Eq (v : value)
  | In_ (vs : list value).

Definition holds (o : option value) (c : cond) : Prop :=
  match c with
  | Eq v => o = Some v
  | In_ vs => ∃ v, o = Some v ∧ v ∈ vs
  end.

#[global] Instance holds_dec o c : Decision (holds o c).
Proof.
  destruct c as [v|vs]; simpl; [apply _|].
  destruct o as [w|].
  - destruct (decide (w ∈ vs)) as [Hin|Hout].
    + left. eauto.
    + right. intros (v & Hv & Hm). congruence.
  - right. intros (v & Hv & _). discriminate.
Defined.

Abbreviation query := (gmap string cond).

(** A document matches a query when every entry of the query holds. *)
Definition matches (q : query) (d : dict) : Prop :=
  map_Forall (λ k c, holds (d !! k) c) q.

#[global] Instance matches_dec q d : Decision (matches q d).
Proof. unfold matches. apply _. Defined.

(** An inclusion projection keeps [_id] and the listed fields. *)
Definition project (keep : option (list string)) (d : dict) : dict :=
  match keep with
  | None => d
  | Some ks => filter (λ kv, kv.1 = "_id" ∨ kv.1 ∈ ks) d
  end.

(** [collection.find(q, projection)], read to the end. *)
Definition find (c : list record) (q : query) (keep : option (list string))
  : list dict :=
  project keep <$> filter (matches q) (to_dict <$> c).

(** [{"$set": upd}] applied to one record. *)
Definition apply_set (upd : dict) (r : record) : record :=
  {| _id := _id r; fields := upd ∪ fields r |}.

(** [collection.update_one(q, {"$set": upd})]: the first record that matches
    is updated; the count of matched records (0 or 1) comes back. *)
Fixpoint update_one (c : list record) (q : query) (upd : dict)
  : list record * nat :=
  match c with
  | [] => ([], 0%nat)
  | r :: rest =>
      if decide (matches q (to_dict r)) then (apply_set upd r :: rest, 1%nat)
      else let '(rest', n) := update_one rest q upd in (r :: rest', n)
  end.

(** [db[name].update_one(...)] on the database.  A collection comes into
    being with its first insert, so an update that matches nothing leaves
    the database as it was. *)
Definition db_update_one (d : database) (name : string) (q : query)
    (upd : dict) : database * nat :=
  let '(c, matched_count) := update_one (collection d name) q upd in
  (if decide (matched_count = 0%nat) then d else <[name := c]> d,
   matched_count).

(** [collection.insert_one(doc)] with the identifier the store assigns. *)
Definition insert_one (c : list record) (new_id : ObjectId) (doc : dict)
  : list record :=
  c ++ [{| _id := new_id; fields := doc |}].

(** [a / b] on two integers: a zero divisor raises.  The value is the exact
    quotient (see [Summary] for how the float relates to it). *)
Definition truediv (a b : nat) : outcome Qc :=
  if decide (b = 0%nat) then Raise ZeroDivisionError
  else Return (Qc_of_Z (Z.of_nat a) / Qc_of_Z (Z.of_nat b))%Qc.

(** ** Handler computations *)

(** A handler runs against the module-level [db], which is [None] when no
    connection was established, and either returns a value or raises. *)
Definition handler (A : Type) : Type :=
  option database → outcome A * option database.

#[global] Instance handler_ret : MRet handler := λ A a db, (Return a, db).

#[global] Instance handler_bind : MBind handler := λ A B k m db,
  match m db with
  | (Return a, db') => k a db'
  | (Raise e, db') => (Raise e, db')
  end.

Definition raise {A} (e : exn) : handler A := λ db, (Raise e, db).
Definition get_db : handler (option database) := λ db, (Return db, db).
Definition put_db (d : database) : handler unit := λ _, (Return tt, Some d).

Definition lift {A} (o : outcome A) : handler A := λ db, (o, db).

(** A list comprehension whose body may raise. *)
Fixpoint traverse {A B} (f : A → outcome B) (l : list A) : outcome (list B) :=
  match l with
  | [] => Return []
  | a :: rest =>
      match f a with
      | Raise e => Raise e
      | Return b =>
          match traverse f rest with
          | Raise e => Raise e
          | Return bs => Return (b :: bs)
          end
      end
  end.

(** Truth value of an [Optional[str]] argument: [None] and [""] are false. *)
Definition truthy (o : option string) : bool :=
  match o with
  | Some s => negb (String.eqb s "")
  | None => false
  end.

(** An [Optional[str]] argument as a Python object. *)
Definition opt_str (o : option string) : value :=
  match o with
  | Some s => VStr s
  | None => VNone
  end.

(** ** Entity definitions ([schemas.py]) *)

Record Workspace := mkWorkspace {
  Workspace_name : string;
  Workspace_owner_user_id : string;
  Workspace_member_user_ids : list string;
  Workspace_description : option string
}.

Record Meeting := mkMeeting {
  Meeting_room_id : string;
  Meeting_title : string;
  Meeting_scheduled_at : datetime;
  Meeting_duration_minutes : Z;
  Meeting_host_user_id : string;
  Meeting_participant_user_ids : list string;
  Meeting_status : string;
  Meeting_recording_url : option string
}.

Record Task := mkTask {
  Task_meeting_id : string;
  Task_title : string;
  Task_assignee_user_id : option string;
  Task_due_date : option datetime;
  Task_status : string
}.

(** The constructors take [None] for a keyword argument that the caller
    left out; a field declared with a default then receives that default. *)
Definition Workspace_init (name owner_user_id : string)
    (member_user_ids : option (list string)) (description : option string)
  : Workspace :=
  {| Workspace_name := name;
     Workspace_owner_user_id := owner_user_id;
     Workspace_member_user_ids := default [] member_user_ids;
     Workspace_description := description |}.

(** [duration_minutes] is declared with [ge=0]. *)
Definition Meeting_init (room_id title : string) (scheduled_at : datetime)
    (duration_minutes : option Z) (host_user_id : string)
    (participant_user_ids : option (list string)) (status : option string)
    (recording_url : option string)
  : outcome Meeting :=
  if decide (0 ≤ default 60 duration_minutes) then
    Return {| Meeting_room_id := room_id;
              Meeting_title := title;
              Meeting_scheduled_at := scheduled_at;
              Meeting_duration_minutes := default 60 duration_minutes;
              Meeting_host_user_id := host_user_id;
              Meeting_participant_user_ids := default [] participant_user_ids;
              Meeting_status := default "scheduled" status;
              Meeting_recording_url := recording_url |}
  else Raise (ValidationError "duration_minutes").

Definition Task_init (meeting_id title : string)
    (assignee_user_id : option string) (due_date : option datetime)
    (status : option string)
  : Task :=
  {| Task_meeting_id := meeting_id;
     Task_title := title;
     Task_assignee_user_id := assignee_user_id;
     Task_due_date := due_date;
     Task_status := default "open" status |}.

(** What every entity offers the store adapter: its fields as a dictionary. *)
Class BaseModel (T : Type) := model_dump : T → dict.

(** An optional field that holds [None] is left out of the dictionary. *)
Definition set_optional (k : string) (o : option value) (d : dict) : dict :=
  match o with
  | Some v => <[k := v]> d
  | None => d
  end.

#[global] Instance Workspace_model : BaseModel Workspace := λ w,
  set_optional "description" (VStr <$> Workspace_description w)
    (<["member_user_ids" := VStrList (Workspace_member_user_ids w)]>
    (<["owner_user_id" := VStr (Workspace_owner_user_id w)]>
    (<["name" := VStr (Workspace_name w)]> ∅))).

#[global] Instance Meeting_model : BaseModel Meeting := λ m,
  set_optional "recording_url" (VStr <$> Meeting_recording_url m)
    (<["status" := VStr (Meeting_status m)]>
    (<["participant_user_ids" := VStrList (Meeting_participant_user_ids m)]>
    (<["host_user_id" := VStr (Meeting_host_user_id m)]>
    (<["duration_minutes" := VInt (Meeting_duration_minutes m)]>
    (<["scheduled_at" := VDatetime (Meeting_scheduled_at m)]>
    (<["title" := VStr (Meeting_title m)]>
    (<["room_id" := VStr (Meeting_room_id m)]> ∅))))))).

#[global] Instance Task_model : BaseModel Task := λ t,
  set_optional "due_date" (VDatetime <$> Task_due_date t)
    (set_optional "assignee_user_id" (VStr <$> Task_assignee_user_id t)
    (<["status" := VStr (Task_status t)]>
    (<["title" := VStr (Task_title t)]>
    (<["meeting_id" := VStr (Task_meeting_id t)]> ∅)))).

(** ** Request and response bodies ([main.py]) *)

Record CreateWorkspaceRequest := mkCreateWorkspaceRequest {
  cw_name : string;
  cw_owner_user_id : string;
  cw_description : option string
}.

Record CreateMeetingRequest := mkCreateMeetingRequest {
  cm_room_id : string;
  cm_title : string;
  cm_scheduled_at : string;
  cm_duration_minutes : Z;
  cm_host_user_id : string;
  cm_participant_user_ids : list string
}.

Record CreateTaskRequest := mkCreateTaskRequest {
  ct_meeting_id : string;
  ct_title : string;
  ct_assignee_user_id : option string;
  ct_due_date : option string
}.

Record UpdateTaskStatusRequest := mkUpdateTaskStatusRequest {
  status : string
}.

(** [{"id": ...}] *)
Record IdResponse := mkIdResponse { created_id : string }.

(** [{"id": ..., "status": ...}] *)
Record StatusResponse := mkStatusResponse {
  updated_id : string;
  updated_status : string
}.

(** The dashboard dictionary.  [completion_rate] carries the exact value of
    the quotient; the float Python computes from two integers is the double
    nearest to that value, so equations between floats are not read off
    this field. *)
Record Summary := mkSummary {
  rooms : nat;
  meetings : nat;
  tasks : nat;
  tasks_done : nat;
  completion_rate : Qc
}.

(** ** The handlers of [main.py] *)

(** The library functions the handlers call.  [None] stands for the
    exception the library raises on text it does not accept. *)
Class Library := {
  (** [bson.ObjectId(text)] *)
  ObjectId_parse : string → option ObjectId;
  (** [datetime.fromisoformat(text)] *)
  fromisoformat : string → option datetime;
  (** [datetime.isoformat(sep)] *)
  datetime_isoformat : string → datetime → string;
  (** [date.isoformat()] *)
  date_isoformat : date → string;
  (** [repr] of a list of strings *)
  list_repr : list string → string
}.

Section Handlers.

Context `{Library}.

(** The builtin [str]. *)
Definition py_str (v : value) : string :=
  match v with
  | VNone => "None"
  | VBool true => "True"
  | VBool false => "False"
  | VInt n => pretty n
  | VStr s => s
  | VStrList l => list_repr l
  | VOid o => oid_hex o
  | VDatetime t => datetime_isoformat " " t
  | VDate t => date_isoformat t
  end.

(** *** Utility serializers *)

(** One round of the loop that converts date values: the entry [(k, v)]
    of the snapshot is written back as text when [v] is a date. *)
Definition isoformat_entry (kv : string * value) (d : dict) : dict :=
  match kv.2 with
  | VDatetime t => <[kv.1 := VStr (datetime_isoformat "T" t)]> d
  | VDate t => <[kv.1 := VStr (date_isoformat t)]> d
  | _ => d
  end.

(** What the loop does to one value. *)
Definition isoformat_value (v : value) : value :=
  match v with
  | VDatetime t => VStr (datetime_isoformat "T" t)
  | VDate t => VStr (date_isoformat t)
  | _ => v
  end.

Definition serialize_doc (doc : dict) : dict :=
  if decide (doc = ∅) then doc
  else
    let d := doc in
    let d := match d !! "_id" with
             | Some v => <["id" := VStr (py_str v)]> (delete "_id" d)
             | None => d
             end in
    foldr isoformat_entry d (map_to_list d).

Definition serialize_list (items : list dict) : list dict :=
  serialize_doc <$> items.

(** *** The store adapter ([database.py]) *)

(** Modelled from the spec: [create_document] of the store adapter, whose
    module is not among the sources.  It turns the entity into a record,
    gives it the new identifier [new_id], appends it to the collection and
    returns the identifier as text; without a connection it fails. *)
Definition create_document {T} `{BaseModel T} (name : string) (data : T)
    (new_id : ObjectId) : handler string :=
  db ← get_db;
  match db with
  | None => raise StoreUnavailable
  | Some d =>
      _ ← put_db (<[name := insert_one (collection d name) new_id
                               (model_dump data)]> d);
      mret (py_str (VOid new_id))
  end.

(** Modelled from the spec: [get_documents] of the store adapter, whose
    module is not among the sources.  It returns every record of the
    collection whose fields equal all entries of the filter, in insertion
    order; without a connection it fails. *)
Definition get_documents (name : string) (filter_dict : dict)
  : handler (list dict) :=
  db ← get_db;
  match db with
  | None => raise StoreUnavailable
  | Some d => mret (find (collection d name) (Eq <$> filter_dict) None)
  end.

(** *** Workspaces *)

Definition create_workspace (req : CreateWorkspaceRequest)
    (new_id : ObjectId) : handler IdResponse :=
  let ws := Workspace_init (cw_name req) (cw_owner_user_id req) None
              (cw_description req) in
  ws_id ← create_document "workspace" ws new_id;
  mret {| created_id := ws_id |}.

Definition list_workspaces (owner_user_id : option string)
  : handler (list dict) :=
  let filter_q : dict := ∅ in
  let filter_q :=
    if truthy owner_user_id
    then <["owner_user_id" := opt_str owner_user_id]> filter_q
    else filter_q in
  items ← get_documents "workspace" filter_q;
  mret (serialize_list items).

(** *** Rooms *)

Definition list_rooms (workspace_id : string) : handler (list dict) :=
  items ← get_documents "room" {["workspace_id" := VStr workspace_id]};
  mret (serialize_list items).

(** *** Meetings *)

Definition create_meeting (req : CreateMeetingRequest) (new_id : ObjectId)
  : handler IdResponse :=
  match fromisoformat (cm_scheduled_at req) with
  | None => raise ValueError
  | Some scheduled_dt =>
      mtg ← lift (Meeting_init (cm_room_id req) (cm_title req) scheduled_dt
                    (Some (cm_duration_minutes req)) (cm_host_user_id req)
                    (Some (cm_participant_user_ids req)) None None);
      meeting_id ← create_document "meeting" mtg new_id;
      mret {| created_id := meeting_id |}
  end.

Definition list_meetings (room_id : option string) : handler (list dict) :=
  let q : dict :=
    if truthy room_id then {["room_id" := opt_str room_id]} else ∅ in
  items ← get_documents "meeting" q;
  mret (serialize_list items).

(** *** Notes *)

Definition list_notes (meeting_id : string) : handler (list dict) :=
  items ← get_documents "note" {["meeting_id" := VStr meeting_id]};
  mret (serialize_list items).

(** *** Tasks *)

Definition create_task (req : CreateTaskRequest) (new_id : ObjectId)
  : handler IdResponse :=
  due_dt ← (if truthy (ct_due_date req) then
              match fromisoformat (default "" (ct_due_date req)) with
              | None => raise ValueError
              | Some t => mret (Some t)
              end
            else mret None);
  let task := Task_init (ct_meeting_id req) (ct_title req)
                (ct_assignee_user_id req) due_dt None in
  task_id ← create_document "task" task new_id;
  mret {| created_id := task_id |}.

Definition list_tasks (meeting_id assignee_user_id : option string)
  : handler (list dict) :=
  let q : dict := ∅ in
  let q := if truthy meeting_id
           then <["meeting_id" := opt_str meeting_id]> q else q in
  let q := if truthy assignee_user_id
           then <["assignee_user_id" := opt_str assignee_user_id]> q
           else q in
  items ← get_documents "task" q;
  mret (serialize_list items).

Definition update_task_status (task_id : string)
    (body : UpdateTaskStatusRequest) : handler StatusResponse :=
  db ← get_db;
  match db with
  | None => raise (HTTPException 500 "Database not available")
  | Some d =>
      match ObjectId_parse task_id with
      | None => raise (HTTPException 400 "Invalid task id")
      | Some oid =>
          let '(d', matched_count) :=
            db_update_one d "task" {["_id" := Eq (VOid oid)]}
              {["status" := VStr (status body)]} in
          _ ← put_db d';
          if decide (matched_count = 0%nat)
          then raise (HTTPException 404 "Task not found")
          else mret {| updated_id := task_id;
                       updated_status := status body |}
      end
  end.

(** *** Dashboard summary *)

Definition dashboard_summary (workspace_id : string) : handler Summary :=
  db ← get_db;
  match db with
  | None => raise (HTTPException 500 "Database not available")
  | Some d =>
      let rooms := find (collection d "room")
                     {["workspace_id" := Eq (VStr workspace_id)]}
                     (Some []) in
      room_ids ← lift (traverse
                         (λ r : dict, match r !! "_id" with
                                      | Some v => Return (py_str v)
                                      | None => Raise (KeyError "_id")
                                      end) rooms);
      let meetings :=
        match room_ids with
        | [] => []
        | _ => find (collection d "meeting")
                 {["room_id" := In_ (VStr <$> room_ids)]} (Some [])
        end in
      let meeting_ids :=
        (λ m : dict, py_str (default VNone (m !! "_id"))) <$> meetings in
      let q_tasks : query :=
        match meeting_ids with
        | [] => ∅
        | _ => {["meeting_id" := In_ (VStr <$> meeting_ids)]}
        end in
      let tasks := find (collection d "task") q_tasks None in
      let total_tasks := length tasks in
      let done_tasks :=
        length (filter (λ t : dict, t !! "status" = Some (VStr "done"))
                  tasks) in
      rate ← (if decide (total_tasks = 0%nat) then mret (Q2Qc 0)
              else lift (truediv done_tasks total_tasks));
      mret {| rooms := length rooms;
              meetings := length meetings;
              tasks := total_tasks;
              tasks_done := done_tasks;
              completion_rate := rate |}
  end.

End Handlers.

(** ** The dashboard algorithm in the words of the specification *)

(** Step 1: the rooms whose [workspace_id] is the given one. *)
Definition rooms_of_workspace (d : database) (workspace_id : string)
  : list record :=
  filter (λ r, fields r !! "workspace_id" = Some (VStr workspace_id))
    (collection d "room").

(** The identifiers of some records, as text. *)
Definition identifiers (rs : list record) : list string :=
  (λ r, oid_hex (_id r)) <$> rs.

(** The field [k] of [r] is a string that occurs in [ids]. *)
Definition field_among (k : string) (ids : list string) (r : record) : Prop :=
  ∃ s, fields r !! k = Some (VStr s) ∧ s ∈ ids.

#[global] Instance field_among_dec k ids r : Decision (field_among k ids r).
Proof.
  unfold field_among.
  destruct (fields r !! k) as [v|] eqn:E.
  - destruct v as [| | |s| | | |];
      try (right; intros (s' & Hs & _); discriminate).
    destruct (decide (s ∈ ids)) as [Hin|Hout].
    + left. eauto.
    + right. intros (s' & Hs & Hm). congruence.
  - right. intros (s' & Hs & _). discriminate.
Defined.

(** Step 2: the meetings held in those rooms; no rooms, no query. *)
Definition meetings_in_rooms (d : database) (room_ids : list string)
  : list record :=
  if decide (room_ids = []) then []
  else filter (field_among "room_id" room_ids) (collection d "meeting").

(** Step 3: the tasks of those meetings; with no meetings the query is
    unfiltered and yields the whole task collection. *)
Definition tasks_of_meetings (d : database) (meeting_ids : list string)
  : list record :=
  if decide (meeting_ids = []) then collection d "task"
  else filter (field_among "meeting_id" meeting_ids) (collection d "task").

(** Step 4: a task counts as completed when its status is ["done"]. *)
Definition is_done (r : record) : Prop :=
  fields r !! "status" = Some (VStr "done").

#[global] Instance is_done_dec r : Decision (is_done r).
Proof. unfold is_done. apply _. Defined.

Definition dashboard_rooms (d : database) (w : string) : list record :=
  rooms_of_workspace d w.
Definition dashboard_meetings (d : database) (w : string) : list record :=
  meetings_in_rooms d (identifiers (dashboard_rooms d w)).
Definition dashboard_tasks (d : database) (w : string) : list record :=
  tasks_of_meetings d (identifiers (dashboard_meetings d w)).

(** The quotient the dashboard reports: completed over total, and zero
    when there is no task. *)
Definition rate_of (done_tasks total_tasks : nat) : Qc :=
  if decide (total_tasks = 0%nat) then Q2Qc 0
  else (Qc_of_Z (Z.of_nat done_tasks) / Qc_of_Z (Z.of_nat total_tasks))%Qc.

(** ** A concrete library, to run the handlers on examples

    Object identifiers are parsed as [bson] does.  Dates are parsed in the
    forms that every release of Python since 3.7 accepts,
    [YYYY-MM-DD] and [YYYY-MM-DD*HH[:MM[:SS[.fff[fff]]]][+HH:MM[:SS]]] with
    [*] the letter T or a space; later releases accept further forms (basic
    format, week dates, a trailing Z), and of those this parser knows
    nothing: it answers [None] for them. *)

Definition digit_of (a : ascii) : option Z :=
  let n := Z.of_N (N_of_ascii a) in
  if (48 <=? n) && (n <=? 57) then Some (n - 48) else None.

Definition is_hex (a : ascii) : bool :=
  let n := Z.of_N (N_of_ascii a) in
  ((48 <=? n) && (n <=? 57)) || ((65 <=? n) && (n <=? 70))
  || ((97 <=? n) && (n <=? 102)).

(** ASCII white space: space, tab, line feed, vertical tab, form feed and
    carriage return. *)
Definition is_space (a : ascii) : bool :=
  let n := Z.of_N (N_of_ascii a) in
  (n =? 32) || ((9 <=? n) && (n <=? 13)).

Definition lower (a : ascii) : ascii :=
  let n := N_of_ascii a in
  if ((65 <=? n) && (n <=? 90))%N then ascii_of_N (n + 32) else a.


(** [bytes.fromhex(text)], with the bytes written back as lower-case
    hexadecimal digits ([bytes.hex()]): white space is skipped between
    bytes, and each byte is two adjacent hexadecimal digits. *)
Fixpoint fromhex (s : string) : option string :=
  match s with
  | EmptyString => Some EmptyString
  | String a rest =>
      if is_space a then fromhex rest
      else
        match rest with
        | EmptyString => None
        | String b rest' =>
            if is_hex a && is_hex b
            then (λ t, String (lower a) (String (lower b) t)) <$> fromhex rest'
            else None
        end
  end.

(** [bson.ObjectId(text)]: the text must be 24 characters long and
    [bytes.fromhex] must accept it; the identifier is made of whatever
    bytes come out. *)
Definition bson_ObjectId (s : string) : option ObjectId :=
  if (String.length s =? 24)%nat then mkObjectId <$> fromhex s else None.


Definition is_leap (y : Z) : bool :=
  ((y mod 4 =? 0) && negb (y mod 100 =? 0)) || (y mod 400 =? 0).

Definition days_in_month (y m : Z) : Z :=
  if m =? 2 then (if is_leap y then 29 else 28)
  else if (m =? 4) || (m =? 6) || (m =? 9) || (m =? 11) then 30
  else 31.

Definition valid_date (y m d : Z) : bool :=
  (1 <=? y) && (1 <=? m) && (m <=? 12) && (1 <=? d)
  && (d <=? days_in_month y m).

(** Exactly [n] decimal digits, and what follows them. *)
Fixpoint take_digits (n : nat) (s : string) (acc : Z) : option (Z * string) :=
  match n with
  | O => Some (acc, s)
  | S n' =>
      match s with
      | EmptyString => None
      | String a rest =>
          match digit_of a with
          | Some d => take_digits n' rest (10 * acc + d)
          | None => None
          end
      end
  end.

(** The character [c], and what follows it. *)
Definition expect (c : ascii) (s : string) : option string :=
  match s with
  | String a rest => if Ascii.eqb a c then Some rest else None
  | EmptyString => None
  end.

(** [YYYY-MM-DD]. *)
Definition parse_date (s : string) : option (date * string) :=
  '(y, s) ← take_digits 4 s 0;
  s ← expect "-" s;
  '(m, s) ← take_digits 2 s 0;
  s ← expect "-" s;
  '(d, s) ← take_digits 2 s 0;
  if valid_date y m d
  then Some ({| d_year := y; d_month := m; d_day := d |}, s)
  else None.

(** [.ffffff] or [.fff], in microseconds; nothing when there is no point. *)
Definition parse_fraction (s : string) : option (Z * string) :=
  match expect "." s with
  | None => Some (0, s)
  | Some s' =>
      match take_digits 6 s' 0 with
      | Some r => Some r
      | None => '(ms, s'') ← take_digits 3 s' 0; Some (1000 * ms, s'')
      end
  end.

(** [HH[:MM[:SS[.fff[fff]]]]]: hour, minute, second, microsecond. *)
Definition parse_clock (s : string) : option (Z * Z * Z * Z * string) :=
  '(h, s) ← take_digits 2 s 0;
  match expect ":" s with
  | None => Some (h, 0, 0, 0, s)
  | Some s =>
      '(m, s) ← take_digits 2 s 0;
      match expect ":" s with
      | None => Some (h, m, 0, 0, s)
      | Some s =>
          '(sec, s) ← take_digits 2 s 0;
          '(us, s) ← parse_fraction s;
          Some (h, m, sec, us, s)
      end
  end.

(** [+HH:MM[:SS]] or [-HH:MM[:SS]] up to the end of the text, in seconds;
    nothing when the text has ended. *)
Definition parse_offset (s : string) : option (option Z) :=
  match s with
  | EmptyString => Some None
  | String a s =>
      sign ← (if Ascii.eqb a "+" then Some 1
              else if Ascii.eqb a "-" then Some (-1) else None);
      '(h, s) ← take_digits 2 s 0;
      s ← expect ":" s;
      '(m, s) ← take_digits 2 s 0;
      '(sec, s) ← match expect ":" s with
                  | None => Some (0, s)
                  | Some s => take_digits 2 s 0
                  end;
      if (h <? 24) && (m <? 60) && (sec <? 60) && String.eqb s ""
      then Some (Some (sign * (3600 * h + 60 * m + sec)))
      else None
  end.

Definition parse_datetime (s : string) : option datetime :=
  '(t, s) ← parse_date s;
  match s with
  | EmptyString =>
      Some {| dt_year := d_year t; dt_month := d_month t; dt_day := d_day t;
              dt_hour := 0; dt_minute := 0; dt_second := 0;
              dt_microsecond := 0; dt_utcoffset := None |}
  | String sep s =>
      if Ascii.eqb sep "T" || Ascii.eqb sep " " then
        '(h, m, sec, us, s) ← parse_clock s;
        offset ← parse_offset s;
        if (h <? 24) && (m <? 60) && (sec <? 60)
        then Some {| dt_year := d_year t; dt_month := d_month t;
                     dt_day := d_day t; dt_hour := h; dt_minute := m;
                     dt_second := sec; dt_microsecond := us;
                     dt_utcoffset := offset |}
        else None
      else None
  end.

(** [n] in decimal, padded with zeros to [w] digits. *)
Definition pad (w : nat) (n : Z) : string :=
  let s : string := pretty n in
  String.concat "" (replicate (w - String.length s) "0") +:+ s.

Definition print_date (y m d : Z) : string :=
  pad 4 y +:+ "-" +:+ pad 2 m +:+ "-" +:+ pad 2 d.

Definition print_offset (o : option Z) : string :=
  match o with
  | None => ""
  | Some z =>
      let a := Z.abs z in
      (if z <? 0 then "-" else "+") +:+ pad 2 (a / 3600) +:+ ":"
      +:+ pad 2 (a mod 3600 / 60)
      +:+ (if a mod 60 =? 0 then "" else ":" +:+ pad 2 (a mod 60))
  end.

Definition print_datetime (sep : string) (t : datetime) : string :=
  print_date (dt_year t) (dt_month t) (dt_day t) +:+ sep
  +:+ pad 2 (dt_hour t) +:+ ":" +:+ pad 2 (dt_minute t) +:+ ":"
  +:+ pad 2 (dt_second t)
  +:+ (if dt_microsecond t =? 0 then ""
       else "." +:+ pad 6 (dt_microsecond t))
  +:+ print_offset (dt_utcoffset t).

Fixpoint string_existsb (f : ascii → bool) (s : string) : bool :=
  match s with
  | EmptyString => false
  | String a rest => f a || string_existsb f rest
  end.

Definition hex_digit (n : N) : ascii :=
  if (n <? 10)%N then ascii_of_N (48 + n) else ascii_of_N (87 + n).

(** One character inside [repr] of a string quoted with [quote].  Text
    outside ASCII is kept as it is, which is what [repr] does with the
    printable part of it. *)
Definition repr_char (quote a : ascii) : string :=
  let n := N_of_ascii a in
  if Ascii.eqb a quote || (n =? 92)%N then String "\" (String a "")
  else if (n =? 9)%N then "\t"
  else if (n =? 10)%N then "\n"
  else if (n =? 13)%N then "\r"
  else if (n <? 32)%N || (n =? 127)%N
  then String "\" (String "x" (String (hex_digit (n / 16))
                                 (String (hex_digit (n mod 16)) "")))
  else String a "".

Fixpoint repr_body (quote : ascii) (s : string) : string :=
  match s with
  | EmptyString => EmptyString
  | String a rest => repr_char quote a +:+ repr_body quote rest
  end.

(** [repr] of a string: apostrophes around it, or double quotes when it
    holds an apostrophe and no double quote. *)
Definition repr_str (s : string) : string :=
  let double_quote : ascii := ascii_of_N 34 in
  let quote : ascii :=
    if string_existsb (Ascii.eqb "'") s
       && negb (string_existsb (Ascii.eqb double_quote) s)
    then double_quote else "'"%char in
  String quote (repr_body quote s) +:+ String quote "".

Definition print_list (l : list string) : string :=
  "[" +:+ String.concat ", " (repr_str <$> l) +:+ "]".

Definition python : Library :=
  {| ObjectId_parse := bson_ObjectId;
     fromisoformat := parse_datetime;
     datetime_isoformat := print_datetime;
     date_isoformat := λ t, print_date (d_year t) (d_month t) (d_day t);
     list_repr := print_list |}.

(** ** An example office

    Workspace [w1] has two rooms; a third room belongs to [w2].  Each room
    hosts one meeting and each meeting has one task; the task of the first
    meeting is done. *)

Definition example_id (suffix : string) : ObjectId :=
  {| oid_hex := "64b0000000000000000000" +:+ suffix |}.

Definition example_room (suffix workspace_id name : string) : record :=
  {| _id := example_id suffix;
     fields := {[ "workspace_id" := VStr workspace_id;
                  "name" := VStr name;
                  "type" := VStr "online" ]} |}.

Definition example_meeting (suffix room_suffix title : string) : record :=
  {| _id := example_id suffix;
     fields := {[ "room_id" := VStr (oid_hex (example_id room_suffix));
                  "title" := VStr title;
                  "scheduled_at" := VDatetime (mkDatetime 2024 5 1 10 30 0 0 None);
                  "duration_minutes" := VInt 60;
                  "host_user_id" := VStr "u1";
                  "participant_user_ids" := VStrList ["u1"; "u2"];
                  "status" := VStr "scheduled" ]} |}.

Definition example_task (suffix meeting_suffix title status : string)
  : record :=
  {| _id := example_id suffix;
     fields := {[ "meeting_id" := VStr (oid_hex (example_id meeting_suffix));
                  "title" := VStr title;
                  "status" := VStr status ]} |}.

Definition office : database :=
  {[ "room" := [ example_room "a1" "w1" "Board room";
                 example_room "a2" "w1" "Stand-up";
                 example_room "a3" "w2" "Lab" ];
     "meeting" := [ example_meeting "b1" "a1" "Planning";
                    example_meeting "b2" "a2" "Daily";
                    example_meeting "b3" "a3" "Review" ];
     "task" := [ example_task "c1" "b1" "Write agenda" "done";
                 example_task "c2" "b2" "Book room" "open";
                 example_task "c3" "b3" "Order parts" "done" ] ]}.

Definition bad_meeting_request : CreateMeetingRequest :=
  {| cm_room_id := oid_hex (example_id "a1");
     cm_title := "Retrospective";
     cm_scheduled_at := "next tuesday";
     cm_duration_minutes := 60;
     cm_host_user_id := "u1";
     cm_participant_user_ids := [] |}.

(** ** Rooms ([schemas.py], [main.py]) *)

Record Room := mkRoom {
  Room_workspace_id : string;
  Room_name : string;
  Room_type : string;
  Room_description : option string
}.

Definition Room_init (workspace_id name : string) (type : option string)
    (description : option string) : Room :=
  {| Room_workspace_id := workspace_id;
     Room_name := name;
     Room_type := default "online" type;
     Room_description := description |}.

#[global] Instance Room_model : BaseModel Room := λ r,
  set_optional "description" (VStr <$> Room_description r)
    (<["type" := VStr (Room_type r)]>
    (<["name" := VStr (Room_name r)]>
    (<["workspace_id" := VStr (Room_workspace_id r)]> ∅))).

Record CreateRoomRequest := mkCreateRoomRequest {
  cr_workspace_id : string;
  cr_name : string;
  cr_type : option string;
  cr_description : option string
}.

(** [o or s] for an [Optional[str]] on the left. *)
Definition or_str (o : option string) (s : string) : string :=
  if truthy o then default "" o else s.

Section RoomHandlers.

Context `{Library}.

Definition create_room (req : CreateRoomRequest) (new_id : ObjectId)
  : handler IdResponse :=
  let room := Room_init (cr_workspace_id req) (cr_name req)
                (Some (or_str (cr_type req) "online"))
                (cr_description req) in
  room_id ← create_document "room" room new_id;
  mret {| created_id := room_id |}.

End RoomHandlers.

(** ** What a caller sees of a stored record *)

Section PublicForm.

Context `{Library}.

(** [out] is the public form of the stored record [r]: the text of the
    identifier stands under ["id"] (in the place of whatever field of that
    name the record had), there is no ["_id"], and every other field has
    the value it has in the record, a date or date-time value being given
    as its ISO text. *)
Definition public_form (r : record) (out : dict) : Prop :=
  out !! "id" = Some (VStr (oid_hex (_id r)))
  ∧ out !! "_id" = None
  ∧ ∀ k, k ≠ "_id" → k ≠ "id" →
      out !! k = match fields r !! k with
                 | Some (VDatetime t) =>
                     Some (VStr (datetime_isoformat "T" t))
                 | Some (VDate t) => Some (VStr (date_isoformat t))
                 | other => other
                 end.

(** The list handler [h] answers, on the store [d], with the public forms
    of records of the collection [name], in the order of the collection,
    and leaves the store alone. *)
Definition lists_records (h : handler (list dict)) (d : database)
    (name : string) : Prop :=
  ∃ rs out, h (Some d) = (Return out, Some d)
            ∧ rs `sublist_of` collection d name
            ∧ Forall2 public_form rs out.

End PublicForm.

(** A store whose only task has a field of its own named ["id"]. *)
Definition labelled_task : record :=
  {| _id := example_id "c9";
     fields := {[ "meeting_id" := VStr (oid_hex (example_id "b1"));
                  "title" := VStr "Archive minutes";
                  "status" := VStr "open";
                  "id" := VStr "T-7" ]} |}.

Definition labelled_store : database := {[ "task" := [labelled_task] ]}.

(** * Properties *)

(** Unfolds the plumbing of a handler computation. *)
Ltac run_handler :=
  unfold mbind, handler_bind, get_db, put_db, raise, lift, mret, handler_ret.

(** ** Queries against the store *)

Lemma to_dict_id (r : record) : to_dict r !! "_id" = Some (VOid (_id r)).
Proof. unfold to_dict. apply lookup_insert_eq. Qed.

Lemma to_dict_field (r : record) (k : string) :
  k ≠ "_id" → to_dict r !! k = fields r !! k.
Proof. intros Hk. unfold to_dict. by rewrite lookup_insert_ne. Qed.

Lemma matches_empty (d : dict) : matches ∅ d.
Proof. unfold matches. apply map_Forall_empty. Qed.

Lemma matches_singleton (k : string) (c : cond) (d : dict) :
  matches {[k := c]} d ↔ holds (d !! k) c.
Proof.
  unfold matches.
  apply (map_Forall_singleton (λ j x, holds (d !! j) x)).
Qed.

(** A filter of exact values matches the documents that contain it. *)
Lemma matches_exact (f d : dict) : matches (Eq <$> f) d ↔ f ⊆ d.
Proof.
  unfold matches. rewrite map_Forall_fmap, map_subseteq_spec.
  unfold map_Forall. simpl. reflexivity.
Qed.

Lemma filter_fmap_list {A B} (f : A → B) (P : B → Prop)
    `{!∀ b, Decision (P b)} (l : list A) :
  filter P (f <$> l) = f <$> filter (λ a, P (f a)) l.
Proof.
  induction l as [|a l IH]; [done|].
  rewrite fmap_cons, !filter_cons, IH.
  destruct (decide (P (f a))); done.
Qed.

(** [find] selects among the stored records and then shapes the result. *)
Lemma find_records (c : list record) (q : query) (keep : option (list string)) :
  find c q keep
  = (λ r, project keep (to_dict r)) <$> filter (λ r, matches q (to_dict r)) c.
Proof.
  unfold find. rewrite filter_fmap_list, <- list_fmap_compose. done.
Qed.

Lemma filter_all {A} (P : A → Prop) `{!∀ a, Decision (P a)} (l : list A) :
  (∀ a, a ∈ l → P a) → filter P l = l.
Proof.
  induction l as [|a l IH]; intros HP; [done|].
  rewrite filter_cons_True by (apply HP; left).
  f_equal. apply IH. intros b Hb. apply HP. by right.
Qed.

Lemma find_everything (c : list record) : find c ∅ None = to_dict <$> c.
Proof.
  rewrite find_records. simpl. f_equal.
  apply filter_all. intros r _. apply matches_empty.
Qed.

(** The projection [{"_id": 1}] leaves the identifier alone. *)
Lemma project_id_only (r : record) :
  project (Some []) (to_dict r) = {["_id" := VOid (_id r)]}.
Proof.
  apply map_eq. intros k. simpl.
  destruct (decide (k = "_id")) as [->|Hk].
  - rewrite lookup_singleton_eq.
    apply map_lookup_filter_Some. split; [apply to_dict_id|]. by left.
  - rewrite lookup_singleton_ne by done.
    apply map_lookup_filter_None. right. intros v _ [Hid|Hin]; simpl in *.
    + done.
    + by apply not_elem_of_nil in Hin.
Qed.

Lemma holds_among (k : string) (ids : list string) (r : record) :
  k ≠ "_id" →
  holds (to_dict r !! k) (In_ (VStr <$> ids)) ↔ field_among k ids r.
Proof.
  intros Hk. rewrite to_dict_field by done. unfold field_among. simpl. split.
  - intros (v & Hv & Hin). apply list_elem_of_fmap in Hin as (s & -> & Hs).
    eauto.
  - intros (s & Hs & Hin). exists (VStr s). split; [done|].
    apply list_elem_of_fmap. eauto.
Qed.

Lemma find_among (c : list record) (k : string) (ids : list string)
    (keep : option (list string)) :
  k ≠ "_id" →
  find c {[k := In_ (VStr <$> ids)]} keep
  = (λ r, project keep (to_dict r)) <$> filter (field_among k ids) c.
Proof.
  intros Hk. rewrite find_records. f_equal.
  apply list_filter_iff. intros r.
  rewrite matches_singleton. by apply holds_among.
Qed.

Lemma find_equal (c : list record) (k : string) (v : value)
    (keep : option (list string)) :
  k ≠ "_id" →
  find c {[k := Eq v]} keep
  = (λ r, project keep (to_dict r))
      <$> filter (λ r, fields r !! k = Some v) c.
Proof.
  intros Hk. rewrite find_records. f_equal.
  apply list_filter_iff. intros r.
  rewrite matches_singleton. simpl. by rewrite to_dict_field.
Qed.

Section Properties.

Context `{Library}.

(** ** Dashboard summary *)

Lemma traverse_identifiers (rs : list record) :
  traverse (λ r : dict, match r !! "_id" with
                        | Some v => Return (py_str v)
                        | None => Raise (KeyError "_id")
                        end)
    ((λ r, project (Some []) (to_dict r)) <$> rs)
  = Return (identifiers rs).
Proof.
  induction rs as [|r rs IH]; [done|].
  rewrite fmap_cons. cbn [traverse].
  rewrite project_id_only, lookup_singleton_eq, IH. done.
Qed.

Lemma meeting_identifiers (ms : list record) :
  (λ m : dict, py_str (default VNone (m !! "_id")))
    <$> ((λ r, project (Some []) (to_dict r)) <$> ms)
  = identifiers ms.
Proof.
  rewrite <- list_fmap_compose. apply list_fmap_ext. intros _ r _.
  cbn [compose]. rewrite project_id_only, lookup_singleton_eq. done.
Qed.

Lemma count_done (ts : list record) :
  length (filter (λ t : dict, t !! "status" = Some (VStr "done"))
            (to_dict <$> ts))
  = length (filter is_done ts).
Proof.
  rewrite filter_fmap_list, length_fmap. f_equal.
  apply list_filter_iff. intros r. unfold is_done.
  by rewrite to_dict_field.
Qed.

Lemma dashboard_run (d : database) (w : string) :
  dashboard_summary w (Some d)
  = (Return {| rooms := length (dashboard_rooms d w);
               meetings := length (dashboard_meetings d w);
               tasks := length (dashboard_tasks d w);
               tasks_done := length (filter is_done (dashboard_tasks d w));
               completion_rate :=
                 rate_of (length (filter is_done (dashboard_tasks d w)))
                         (length (dashboard_tasks d w)) |},
     Some d).
Proof.
  unfold dashboard_summary. run_handler.
  rewrite find_equal by done.
  rewrite traverse_identifiers.
  fold (rooms_of_workspace d w). fold (dashboard_rooms d w).
  assert (match identifiers (dashboard_rooms d w) with
          | [] => []
          | _ :: _ =>
              find (collection d "meeting")
                {["room_id" := In_ (VStr <$> identifiers (dashboard_rooms d w))]}
                (Some [])
          end
          = (λ r, project (Some []) (to_dict r)) <$> dashboard_meetings d w)
    as ->.
  { unfold dashboard_meetings, meetings_in_rooms.
    destruct (identifiers (dashboard_rooms d w)) as [|i ids]; [done|].
    rewrite decide_False by done. by apply find_among. }
  rewrite meeting_identifiers.
  assert (find (collection d "task")
            match identifiers (dashboard_meetings d w) with
            | [] => ∅
            | _ :: _ =>
                {["meeting_id"
                  := In_ (VStr <$> identifiers (dashboard_meetings d w))]}
            end None
          = to_dict <$> dashboard_tasks d w) as ->.
  { unfold dashboard_tasks, tasks_of_meetings.
    destruct (identifiers (dashboard_meetings d w)) as [|i ids].
    - rewrite decide_True by done. apply find_everything.
    - rewrite decide_False by done. by rewrite find_among. }
  rewrite count_done, !length_fmap. unfold rate_of, truediv.
  destruct (decide (length (dashboard_tasks d w) = 0%nat)); done.
Qed.

(** C1: the dashboard summary follows the four steps of the specification:
    the rooms of the workspace and their identifiers; the meetings held in
    those rooms, with no meeting query and no meetings when there is no room;
    the tasks of those meetings, or the whole task collection when there is
    no meeting; and the count of tasks whose status is ["done"]. *)
Theorem dashboard_summary_algorithm (d : database) (workspace_id : string) :
  let room_set := rooms_of_workspace d workspace_id in
  let meeting_set := meetings_in_rooms d (identifiers room_set) in
  let task_set := tasks_of_meetings d (identifiers meeting_set) in
  (∃ s, dashboard_summary workspace_id (Some d) = (Return s, Some d)
        ∧ rooms s = length room_set
        ∧ meetings s = length meeting_set
        ∧ tasks s = length task_set
        ∧ tasks_done s = length (filter is_done task_set))
  ∧ (identifiers room_set = [] → meeting_set = [])
  ∧ (identifiers meeting_set = [] → task_set = collection d "task").
Proof.
  intros room_set meeting_set task_set. split; [|split].
  - eexists. split; [apply dashboard_run|]. simpl. done.
  - intros E. unfold meeting_set, meetings_in_rooms. by rewrite decide_True.
  - intros E. unfold task_set, tasks_of_meetings. by rewrite decide_True.
Qed.

(** ** Task status update *)

Lemma matches_id (oid : ObjectId) (r : record) :
  matches {["_id" := Eq (VOid oid)]} (to_dict r) ↔ _id r = oid.
Proof.
  rewrite matches_singleton, to_dict_id. simpl. split; congruence.
Qed.

Lemma update_one_miss (c : list record) (oid : ObjectId) (upd : dict) :
  (∀ r, r ∈ c → _id r ≠ oid) →
  update_one c {["_id" := Eq (VOid oid)]} upd = (c, 0%nat).
Proof.
  induction c as [|r c IH]; intros Hmiss; [done|].
  simpl. rewrite decide_False.
  - rewrite IH; [done|]. intros x Hx. apply Hmiss. by right.
  - rewrite matches_id. apply Hmiss. left.
Qed.

Lemma update_one_hit (pre post : list record) (r : record) (oid : ObjectId)
    (upd : dict) :
  (∀ x, x ∈ pre → _id x ≠ oid) → _id r = oid →
  update_one (pre ++ r :: post) {["_id" := Eq (VOid oid)]} upd
  = (pre ++ apply_set upd r :: post, 1%nat).
Proof.
  intros Hpre Hr. induction pre as [|x pre IH]; simpl.
  - rewrite decide_True; [done|]. by apply matches_id.
  - rewrite decide_False.
    + rewrite IH; [done|]. intros y Hy. apply Hpre. by right.
    + rewrite matches_id. apply Hpre. left.
Qed.

Lemma first_with_id (c : list record) (oid : ObjectId) :
  (∃ r, r ∈ c ∧ _id r = oid) →
  ∃ pre r post, c = pre ++ r :: post ∧ _id r = oid
                ∧ ∀ x, x ∈ pre → _id x ≠ oid.
Proof.
  induction c as [|a c IH]; intros (r & Hin & Hr).
  - by apply not_elem_of_nil in Hin.
  - destruct (decide (_id a = oid)) as [Ha|Ha].
    + exists [], a, c. split; [done|]. split; [done|].
      intros x Hx. by apply not_elem_of_nil in Hx.
    + apply elem_of_cons in Hin as [->|Hin]; [done|].
      destruct IH as (pre & r' & post & -> & Hr' & Hpre); [by eauto|].
      exists (a :: pre), r', post. split; [done|]. split; [done|].
      intros x Hx. apply elem_of_cons in Hx as [->|Hx]; [done|by apply Hpre].
Qed.

(** C4: a status update on an existing task overwrites the status field of
    that record and nothing else: its other fields, the other records of
    the collection and the other collections stay as they are; the
    identifier and the new status come back. *)
Theorem update_task_status_existing (d : database) (task_id : string)
    (body : UpdateTaskStatusRequest) (oid : ObjectId) :
  ObjectId_parse task_id = Some oid →
  (∃ r, r ∈ collection d "task" ∧ _id r = oid) →
  ∃ d' pre r r' post,
    update_task_status task_id body (Some d)
    = (Return {| updated_id := task_id; updated_status := status body |},
       Some d')
    ∧ collection d "task" = pre ++ r :: post
    ∧ collection d' "task" = pre ++ r' :: post
    ∧ _id r = oid ∧ (∀ x, x ∈ pre → _id x ≠ oid)
    ∧ _id r' = _id r
    ∧ fields r' !! "status" = Some (VStr (status body))
    ∧ (∀ k, k ≠ "status" → fields r' !! k = fields r !! k)
    ∧ (∀ name, name ≠ "task" → d' !! name = d !! name).
Proof.
  intros Hparse Hex.
  destruct (first_with_id _ _ Hex) as (pre & r & post & Hc & Hr & Hpre).
  exists (<["task" := pre ++ apply_set {["status" := VStr (status body)]} r
                        :: post]> d), pre, r,
    (apply_set {["status" := VStr (status body)]} r), post.
  split.
  { unfold update_task_status, db_update_one. run_handler.
    rewrite Hparse, Hc, update_one_hit by done.
    rewrite decide_False by done. by rewrite decide_False. }
  split; [done|]. split.
  { unfold collection. by rewrite lookup_insert_eq. }
  split; [done|]. split; [done|]. split; [done|]. split.
  { simpl. rewrite <- insert_union_singleton_l. apply lookup_insert_eq. }
  split.
  { intros k Hk. simpl. rewrite <- insert_union_singleton_l.
    by rewrite lookup_insert_ne. }
  intros name Hname. by rewrite lookup_insert_ne.
Qed.

(** C5: a status update whose identifier is well formed but names no stored
    task fails with 404 "Task not found" and leaves the store as it was. *)
Theorem update_task_status_not_found (d : database) (task_id : string)
    (body : UpdateTaskStatusRequest) (oid : ObjectId) :
  ObjectId_parse task_id = Some oid →
  (∀ r, r ∈ collection d "task" → _id r ≠ oid) →
  update_task_status task_id body (Some d)
  = (Raise (HTTPException 404 "Task not found"), Some d).
Proof.
  intros Hparse Hmiss.
  unfold update_task_status, db_update_one. run_handler.
  rewrite Hparse, update_one_miss by done.
  rewrite decide_True by done. by rewrite decide_True.
Qed.


(** ** Creating a meeting *)

(** C3 (as the code has it): when [scheduled_at] is not accepted by the date
    parser, creating a meeting fails with the parser's [ValueError], which
    the handler does not turn into a client error, so the framework answers
    with status 500; no record is inserted and the store is unchanged. *)
Theorem create_meeting_unparsable (req : CreateMeetingRequest)
    (new_id : ObjectId) (db : option database) :
  fromisoformat (cm_scheduled_at req) = None →
  create_meeting req new_id db = (Raise ValueError, db)
  ∧ response_status ValueError = 500
  ∧ is_client_error ValueError = false.
Proof.
  intros Hparse. unfold create_meeting. rewrite Hparse. done.
Qed.

(** When the date is accepted and the duration is not negative, the
    meeting is appended to its collection under the new identifier, with
    the default status, and the identifier's text is returned. *)
Lemma create_meeting_run (d : database) (req : CreateMeetingRequest)
    (new_id : ObjectId) (t : datetime) :
  fromisoformat (cm_scheduled_at req) = Some t →
  0 ≤ cm_duration_minutes req →
  ∃ r, create_meeting req new_id (Some d)
       = (Return {| created_id := oid_hex new_id |},
          Some (<["meeting" := collection d "meeting" ++ [r]]> d))
       ∧ _id r = new_id
       ∧ fields r !! "room_id" = Some (VStr (cm_room_id req))
       ∧ fields r !! "scheduled_at" = Some (VDatetime t)
       ∧ fields r !! "status" = Some (VStr "scheduled").
Proof.
  intros Hparse Hge. eexists. split.
  - unfold create_meeting, create_document, Meeting_init. rewrite Hparse.
    run_handler. cbn [default]. rewrite decide_True by done.
    unfold insert_one. reflexivity.
  - cbn [_id fields]. split; [done|].
    unfold model_dump, Meeting_model, set_optional. cbn.
    repeat split; by simplify_map_eq.
Qed.

(** ** Serialization *)

Lemma foldr_isoformat_lookup (l : list (string * value)) (d : dict)
    (k : string) :
  NoDup l.*1 →
  foldr isoformat_entry d l !! k
  = match (list_to_map l : dict) !! k with
    | Some (VDatetime t) => Some (VStr (datetime_isoformat "T" t))
    | Some (VDate t) => Some (VStr (date_isoformat t))
    | _ => d !! k
    end.
Proof.
  induction l as [|[j v] l IH]; intros Hnd; [done|].
  rewrite fmap_cons in Hnd. apply NoDup_cons in Hnd as [Hj Hnd].
  cbn [foldr list_to_map]. destruct (decide (j = k)) as [->|Hjk].
  - rewrite lookup_insert_eq. unfold isoformat_entry. cbn [fst snd].
    assert ((list_to_map l : dict) !! k = None) as Hnone
      by by apply not_elem_of_list_to_map_1.
    specialize (IH Hnd). rewrite Hnone in IH.
    destruct v; try done; by rewrite lookup_insert_eq.
  - rewrite lookup_insert_ne by done. rewrite <- (IH Hnd).
    unfold isoformat_entry. cbn [fst snd].
    destruct v; try done; by rewrite lookup_insert_ne.
Qed.

(** The loop over the snapshot of the entries converts every value. *)
Lemma isoformat_loop (d : dict) :
  foldr isoformat_entry d (map_to_list d) = isoformat_value <$> d.
Proof.
  apply map_eq. intros k.
  rewrite foldr_isoformat_lookup by apply NoDup_fst_map_to_list.
  rewrite list_to_map_to_list, lookup_fmap.
  destruct (d !! k) as [v|]; [|done]. by destruct v.
Qed.

Lemma serialize_doc_eq (doc : dict) :
  serialize_doc doc
  = isoformat_value <$> match doc !! "_id" with
                        | Some v => <["id" := VStr (py_str v)]>
                                      (delete "_id" doc)
                        | None => doc
                        end.
Proof.
  unfold serialize_doc. destruct (decide (doc = ∅)) as [->|_].
  - by rewrite lookup_empty, fmap_empty.
  - apply isoformat_loop.
Qed.

(** Serializing a stored record gives its public form. *)
Lemma serialize_doc_public (r : record) :
  public_form r (serialize_doc (to_dict r)).
Proof.
  unfold public_form. rewrite serialize_doc_eq, to_dict_id.
  split; [|split].
  - by rewrite lookup_fmap, lookup_insert_eq.
  - rewrite lookup_fmap, lookup_insert_ne by done.
    by rewrite lookup_delete_eq.
  - intros k Hk Hid.
    rewrite lookup_fmap, lookup_insert_ne by done.
    rewrite lookup_delete_ne by done. rewrite to_dict_field by done.
    destruct (fields r !! k) as [v|]; [|done]. by destruct v.
Qed.

(** ** Listing *)

Lemma get_documents_run (d : database) (name : string) (f : dict) :
  get_documents name f (Some d)
  = (Return (to_dict <$> filter (λ r, f ⊆ to_dict r) (collection d name)),
     Some d).
Proof.
  unfold get_documents. run_handler.
  rewrite find_records. cbn [project].
  rewrite (list_filter_iff _ (λ r, f ⊆ to_dict r)); [done|].
  intros r. apply matches_exact.
Qed.

Lemma singleton_subseteq_field (k : string) (v : value) (r : record) :
  k ≠ "_id" → ({[k := v]} : dict) ⊆ to_dict r ↔ fields r !! k = Some v.
Proof.
  intros Hk. rewrite map_singleton_subseteq_l. by rewrite to_dict_field.
Qed.

Lemma pair_subseteq_fields (k1 k2 : string) (v1 v2 : value) (r : record) :
  k1 ≠ "_id" → k2 ≠ "_id" → k1 ≠ k2 →
  (<[k2 := v2]> (<[k1 := v1]> ∅) : dict) ⊆ to_dict r
  ↔ fields r !! k1 = Some v1 ∧ fields r !! k2 = Some v2.
Proof.
  intros H1 H2 H12. rewrite map_subseteq_spec. split.
  - intros Hsub. split.
    + rewrite <- to_dict_field by done. apply Hsub.
      rewrite lookup_insert_ne by done. apply lookup_insert_eq.
    + rewrite <- to_dict_field by done. apply Hsub. apply lookup_insert_eq.
  - intros [Hf1 Hf2] k v Hkv.
    apply lookup_insert_Some in Hkv as [[<- <-]|[_ Hkv]].
    { by rewrite to_dict_field. }
    apply lookup_insert_Some in Hkv as [[<- <-]|[_ Hkv]].
    { by rewrite to_dict_field. }
    by rewrite lookup_empty in Hkv.
Qed.

Lemma truthy_Some (s : string) : truthy (Some s) = true ↔ s ≠ "".
Proof.
  simpl. rewrite negb_true_iff. split.
  - intros Hs ->. discriminate.
  - intros Hs. destruct (String.eqb_spec s ""); done.
Qed.

(** What [list_tasks] returns, for any pair of arguments. *)
Lemma list_tasks_run (d : database) (meeting_id assignee_user_id : option string) :
  list_tasks meeting_id assignee_user_id (Some d)
  = (Return (serialize_list (to_dict <$> filter
       (λ r, (truthy meeting_id →
              fields r !! "meeting_id" = Some (opt_str meeting_id))
             ∧ (truthy assignee_user_id →
                fields r !! "assignee_user_id"
                = Some (opt_str assignee_user_id)))
       (collection d "task"))),
     Some d).
Proof.
  unfold list_tasks. run_handler.
  rewrite get_documents_run. do 4 f_equal.
  apply list_filter_iff. intros r.
  destruct (truthy meeting_id), (truthy assignee_user_id); simpl.
  - rewrite pair_subseteq_fields by done. tauto.
  - rewrite insert_empty, singleton_subseteq_field by done. tauto.
  - rewrite insert_empty, singleton_subseteq_field by done. tauto.
  - split; [tauto|]. intros _. apply map_empty_subseteq.
Qed.

(** The other list handlers: a required filter always applies, an optional
    one applies when it is given and not empty. *)
Lemma list_rooms_run (d : database) (workspace_id : string) :
  list_rooms workspace_id (Some d)
  = (Return (serialize_list (to_dict <$> filter
       (λ r, fields r !! "workspace_id" = Some (VStr workspace_id))
       (collection d "room"))), Some d).
Proof.
  unfold list_rooms. run_handler. rewrite get_documents_run. do 4 f_equal.
  apply list_filter_iff. intros r. by apply singleton_subseteq_field.
Qed.

Lemma list_notes_run (d : database) (meeting_id : string) :
  list_notes meeting_id (Some d)
  = (Return (serialize_list (to_dict <$> filter
       (λ r, fields r !! "meeting_id" = Some (VStr meeting_id))
       (collection d "note"))), Some d).
Proof.
  unfold list_notes. run_handler. rewrite get_documents_run. do 4 f_equal.
  apply list_filter_iff. intros r. by apply singleton_subseteq_field.
Qed.

Lemma list_meetings_run (d : database) (room_id : option string) :
  list_meetings room_id (Some d)
  = (Return (serialize_list (to_dict <$> filter
       (λ r, truthy room_id → fields r !! "room_id" = Some (opt_str room_id))
       (collection d "meeting"))), Some d).
Proof.
  unfold list_meetings. run_handler. rewrite get_documents_run. do 4 f_equal.
  apply list_filter_iff. intros r. destruct (truthy room_id); simpl.
  - rewrite singleton_subseteq_field by done. tauto.
  - split; [tauto|]. intros _. apply map_empty_subseteq.
Qed.

Lemma list_workspaces_run (d : database) (owner_user_id : option string) :
  list_workspaces owner_user_id (Some d)
  = (Return (serialize_list (to_dict <$> filter
       (λ r, truthy owner_user_id →
             fields r !! "owner_user_id" = Some (opt_str owner_user_id))
       (collection d "workspace"))), Some d).
Proof.
  unfold list_workspaces. run_handler. rewrite get_documents_run.
  do 4 f_equal.
  apply list_filter_iff. intros r. destruct (truthy owner_user_id); simpl.
  - rewrite insert_empty, singleton_subseteq_field by done. tauto.
  - split; [tauto|]. intros _. apply map_empty_subseteq.
Qed.

Lemma lists_filtered (h : handler (list dict)) (d : database) (name : string)
    (P : record → Prop) `{!∀ r, Decision (P r)} :
  h (Some d)
  = (Return (serialize_list (to_dict <$> filter P (collection d name))),
     Some d) →
  lists_records h d name.
Proof.
  intros Hrun. exists (filter P (collection d name)). eexists.
  split; [exact Hrun|]. split; [apply sublist_filter|].
  unfold serialize_list. rewrite <- list_fmap_compose.
  apply Forall2_fmap_r, Forall_Forall2_diag, Forall_forall.
  intros r _. apply serialize_doc_public.
Qed.

(** C7 (as the code has it): every list handler answers with the public
    forms of stored records of its collection: in each returned document
    the identifier is no longer under ["_id"]; its text stands under
    ["id"], overwriting a field of that name if the record had one; each
    date or date-time value is given as ISO text; and every other field
    has the value stored. *)
Theorem listed_records_public_form (d : database) :
  (∀ owner_user_id,
     lists_records (list_workspaces owner_user_id) d "workspace")
  ∧ (∀ workspace_id, lists_records (list_rooms workspace_id) d "room")
  ∧ (∀ room_id, lists_records (list_meetings room_id) d "meeting")
  ∧ (∀ meeting_id, lists_records (list_notes meeting_id) d "note")
  ∧ (∀ meeting_id assignee_user_id,
       lists_records (list_tasks meeting_id assignee_user_id) d "task").
Proof.
  repeat split; intros.
  - eapply lists_filtered, list_workspaces_run.
  - eapply lists_filtered, list_rooms_run.
  - eapply lists_filtered, list_meetings_run.
  - eapply lists_filtered, list_notes_run.
  - eapply lists_filtered, list_tasks_run.
Qed.

(** C8 (as the code has it): with no filter the task list holds every task
    of the collection; with a non-empty [meeting_id] and no assignee it
    holds exactly the tasks whose [meeting_id] field equals that value; in
    general each argument that is given and not empty must equal the
    corresponding field, and an omitted one constrains nothing. *)
Theorem list_tasks_filters (d : database) :
  list_tasks None None (Some d)
  = (Return (serialize_list (to_dict <$> collection d "task")), Some d)
  ∧ (∀ m, m ≠ "" →
       list_tasks (Some m) None (Some d)
       = (Return (serialize_list (to_dict <$> filter
            (λ r, fields r !! "meeting_id" = Some (VStr m))
            (collection d "task"))), Some d))
  ∧ (∀ m a,
       list_tasks m a (Some d)
       = (Return (serialize_list (to_dict <$> filter
            (λ r, (truthy m → fields r !! "meeting_id" = Some (opt_str m))
                  ∧ (truthy a →
                     fields r !! "assignee_user_id" = Some (opt_str a)))
            (collection d "task"))), Some d)).
Proof.
  split; [|split].
  - rewrite list_tasks_run. do 4 f_equal. apply filter_all.
    intros r _. simpl. tauto.
  - intros m Hm. rewrite list_tasks_run. do 4 f_equal.
    apply list_filter_iff. intros r.
    apply truthy_Some in Hm. rewrite Hm. simpl. tauto.
  - intros m a. apply list_tasks_run.
Qed.



End Properties.

(** ** Entity defaults *)

(** C9: a meeting constructed without a status has status ["scheduled"], a
    task constructed without a status has status ["open"], and a workspace
    constructed without [member_user_ids] has the empty list of members. *)
Theorem defaults_at_construction :
  (∀ room_id title scheduled_at duration_minutes host_user_id
     participant_user_ids recording_url,
     0 ≤ default 60 duration_minutes →
     ∃ m, Meeting_init room_id title scheduled_at duration_minutes
            host_user_id participant_user_ids None recording_url = Return m
          ∧ Meeting_status m = "scheduled")
  ∧ (∀ meeting_id title assignee_user_id due_date,
       Task_status (Task_init meeting_id title assignee_user_id due_date None)
       = "open")
  ∧ (∀ name owner_user_id description,
       Workspace_member_user_ids
         (Workspace_init name owner_user_id None description) = []).
Proof.
  split; [|split]; [|done|done].
  intros room_id title scheduled_at duration_minutes host_user_id
    participant_user_ids recording_url Hge.
  unfold Meeting_init. rewrite decide_True by done. eauto.
Qed.

(** ** The handlers on the example office *)

(** The scenario of the specification: two rooms, two of the three meetings
    in those rooms, one of their two tasks done. *)
Example dashboard_summary_office :
  ∃ s, dashboard_summary (H := python) "w1" (Some office) = (Return s, Some office)
       ∧ rooms s = 2%nat ∧ meetings s = 2%nat ∧ tasks s = 2%nat
       ∧ tasks_done s = 1%nat ∧ completion_rate s = Q2Qc (1 # 2).
Proof.
  eexists. split; [apply dashboard_run|]. simpl.
  repeat split; vm_compute; reflexivity.
Qed.

(** A workspace without rooms: no meetings, and the task query runs
    unfiltered, so all three tasks of the collection are counted. *)
Example dashboard_summary_no_rooms :
  ∃ s, dashboard_summary (H := python) "w9" (Some office) = (Return s, Some office)
       ∧ rooms s = 0%nat ∧ meetings s = 0%nat ∧ tasks s = 3%nat
       ∧ tasks_done s = 2%nat.
Proof.
  eexists. split; [apply dashboard_run|]. simpl.
  repeat split; vm_compute; reflexivity.
Qed.

(** [create_meeting_unparsable] on a request whose date is plain words. *)
Lemma create_meeting_unparsable_witness :
  fromisoformat (Library := python) (cm_scheduled_at bad_meeting_request) = None
  ∧ create_meeting (H := python) bad_meeting_request (example_id "b4")
      (Some office)
    = (Raise ValueError, Some office)
  ∧ response_status ValueError = 500
  ∧ is_client_error ValueError = false.
Proof.
  split; [reflexivity|].
  apply (create_meeting_unparsable (H := python) bad_meeting_request
           (example_id "b4") (Some office)).
  reflexivity.
Defined.

(** The error raised for an unparsable date is not a client error. *)
Lemma create_meeting_unparsable_server_error :
  ¬ ∃ e db', create_meeting (H := python) bad_meeting_request
               (example_id "b4") (Some office) = (Raise e, db')
             ∧ is_client_error e = true.
Proof.
  intros (e & db' & Hrun & Hclient).
  assert (create_meeting (H := python) bad_meeting_request (example_id "b4")
            (Some office) = (Raise ValueError, Some office)) as Hcode
    by reflexivity.
  rewrite Hcode in Hrun. injection Hrun as <- _. discriminate Hclient.
Qed.

(** [update_task_status_existing] on the second task of the office. *)
Lemma update_task_status_existing_witness :
  ObjectId_parse (Library := python) "64B0000000000000000000C2"
  = Some (example_id "c2")
  ∧ (∃ r, r ∈ collection office "task" ∧ _id r = example_id "c2")
  ∧ ∃ d' pre r r' post,
      update_task_status (H := python) "64B0000000000000000000C2"
        {| status := "done" |} (Some office)
      = (Return {| updated_id := "64B0000000000000000000C2";
                   updated_status := "done" |}, Some d')
      ∧ collection office "task" = pre ++ r :: post
      ∧ collection d' "task" = pre ++ r' :: post
      ∧ _id r = example_id "c2"
      ∧ (∀ x, x ∈ pre → _id x ≠ example_id "c2")
      ∧ _id r' = _id r
      ∧ fields r' !! "status" = Some (VStr "done")
      ∧ (∀ k, k ≠ "status" → fields r' !! k = fields r !! k)
      ∧ (∀ name, name ≠ "task" → d' !! name = office !! name).
Proof.
  assert (∃ r, r ∈ collection office "task" ∧ _id r = example_id "c2") as Hex.
  { exists (example_task "c2" "b2" "Book room" "open").
    split; [|reflexivity]. right. left. }
  split; [reflexivity|]. split; [exact Hex|].
  apply (update_task_status_existing (H := python) office
           "64B0000000000000000000C2" {| status := "done" |}
           (example_id "c2")); [reflexivity|exact Hex].
Defined.

(** [update_task_status_not_found] on an identifier no task carries. *)
Lemma update_task_status_not_found_witness :
  ObjectId_parse (Library := python) "64b0000000000000000000ff"
  = Some (example_id "ff")
  ∧ (∀ r, r ∈ collection office "task" → _id r ≠ example_id "ff")
  ∧ update_task_status (H := python) "64b0000000000000000000ff"
      {| status := "done" |} (Some office)
    = (Raise (HTTPException 404 "Task not found"), Some office).
Proof.
  assert (∀ r, r ∈ collection office "task" → _id r ≠ example_id "ff")
    as Hmiss.
  { apply Forall_forall. repeat constructor; discriminate. }
  split; [reflexivity|]. split; [exact Hmiss|].
  apply (update_task_status_not_found (H := python) office
           "64b0000000000000000000ff" {| status := "done" |}
           (example_id "ff")); [reflexivity|exact Hmiss].
Defined.


(** [defaults_at_construction] on a half-hour meeting. *)
Lemma defaults_at_construction_witness :
  0 ≤ default 60 (Some 30)
  ∧ (∃ m, Meeting_init "r1" "Planning" (mkDatetime 2024 5 1 10 30 0 0 None)
            (Some 30) "u1" None None None = Return m
          ∧ Meeting_status m = "scheduled")
  ∧ Task_status (Task_init "m1" "Write agenda" None None None) = "open"
  ∧ Workspace_member_user_ids (Workspace_init "Bright Media" "u1" None None)
    = [].
Proof.
  destruct defaults_at_construction as (Hmeeting & Htask & Hworkspace).
  split; [simpl; lia|]. split; [|split].
  - apply (Hmeeting "r1" "Planning" (mkDatetime 2024 5 1 10 30 0 0 None)
             (Some 30) "u1" None None). simpl. lia.
  - apply Htask.
  - apply Hworkspace.
Defined.

(** With the empty string as [meeting_id] the task list is not the list of
    tasks whose [meeting_id] field is the empty string: the office has no
    such task, and all three tasks are returned. *)
Lemma list_tasks_empty_meeting_id :
  list_tasks (H := python) (Some "") None (Some office)
  ≠ (Return (serialize_list (H := python)
       (to_dict <$> filter (λ r, fields r !! "meeting_id" = Some (VStr ""))
                      (collection office "task"))), Some office).
Proof.
  intros Heq.
  apply (f_equal (λ p, match p.1 with
                       | Return l => length l
                       | Raise _ => 0%nat
                       end)) in Heq.
  vm_compute in Heq. discriminate Heq.
Qed.

(** [dashboard_summary_algorithm] on workspace [w1] of the office. *)
Lemma dashboard_summary_algorithm_witness :
  ∃ s, dashboard_summary (H := python) "w1" (Some office)
       = (Return s, Some office)
       ∧ rooms s = 2%nat ∧ meetings s = 2%nat ∧ tasks s = 2%nat
       ∧ tasks_done s = 1%nat.
Proof.
  destruct (dashboard_summary_algorithm (H := python) office "w1")
    as [(s & Hrun & Hrooms & Hmeetings & Htasks & Hdone) _].
  exists s. split; [exact Hrun|].
  rewrite Hrooms, Hmeetings, Htasks, Hdone.
  repeat split; vm_compute; reflexivity.
Defined.

(** [list_tasks_filters] on the office: the tasks of the first meeting. *)
Lemma list_tasks_filters_witness :
  oid_hex (example_id "b1") ≠ ""
  ∧ list_tasks (H := python) (Some (oid_hex (example_id "b1"))) None
      (Some office)
    = (Return [serialize_doc (H := python)
                 (to_dict (example_task "c1" "b1" "Write agenda" "done"))],
       Some office).
Proof.
  destruct (list_tasks_filters (H := python) office) as (_ & Hone & _).
  split; [discriminate|].
  rewrite Hone by discriminate. reflexivity.
Defined.

(** * Further properties of the handlers *)

Section FurtherProperties.

Context `{Library}.

(** ** Serialization of arbitrary dictionaries *)

Lemma isoformat_value_idemp (v : value) :
  isoformat_value (isoformat_value v) = isoformat_value v.
Proof. by destruct v. Qed.


Lemma serialize_doc_no_id (doc : dict) : serialize_doc doc !! "_id" = None.
Proof.
  rewrite serialize_doc_eq, lookup_fmap.
  destruct (doc !! "_id") as [v|] eqn:E.
  - rewrite lookup_insert_ne by done. by rewrite lookup_delete_eq.
  - by rewrite E.
Qed.


(** X2: serializing twice is the same as serializing once, for a document
    and for a list of documents. *)
Theorem serialize_doc_idempotent (doc : dict) (items : list dict) :
  serialize_doc (serialize_doc doc) = serialize_doc doc
  ∧ serialize_list (serialize_list items) = serialize_list items.
Proof.
  assert (∀ d, serialize_doc (serialize_doc d) = serialize_doc d) as Hdoc.
  { intros d. rewrite (serialize_doc_eq (serialize_doc d)).
    rewrite serialize_doc_no_id. rewrite serialize_doc_eq.
    rewrite <- map_fmap_compose. apply map_fmap_ext.
    intros k v _. apply isoformat_value_idemp. }
  split; [apply Hdoc|].
  unfold serialize_list. rewrite <- list_fmap_compose.
  apply list_fmap_ext. intros i d _. apply Hdoc.
Qed.

(** X3: the keys of the result.  Without ["_id"] the keys are those of the
    input; with ["_id"] that key is replaced by ["id"], which then holds the
    text of the identifier whatever the input had under ["id"]. *)
Theorem serialize_doc_keys (doc : dict) :
  (doc !! "_id" = None → dom (serialize_doc doc) = dom doc)
  ∧ (∀ v, doc !! "_id" = Some v →
          dom (serialize_doc doc) = {["id"]} ∪ dom doc ∖ {["_id"]}
          ∧ serialize_doc doc !! "id" = Some (VStr (py_str v))).
Proof.
  split.
  - intros Hnone. rewrite serialize_doc_eq, Hnone. apply dom_fmap_L.
  - intros v Hv. rewrite serialize_doc_eq, Hv. split.
    + rewrite dom_fmap_L, dom_insert_L, dom_delete_L. done.
    + by rewrite lookup_fmap, lookup_insert_eq.
Qed.

(** ** Task status update: every way the handler can run *)

Lemma id_cases (c : list record) (oid : ObjectId) :
  (∀ r, r ∈ c → _id r ≠ oid)
  ∨ (∃ pre r post, c = pre ++ r :: post ∧ _id r = oid
                   ∧ ∀ x, x ∈ pre → _id x ≠ oid).
Proof.
  destruct (decide (Exists (λ r, _id r = oid) c)) as [Hex|Hnex].
  - right. apply first_with_id. by apply Exists_exists in Hex.
  - left. intros r Hr Heq. apply Hnex, Exists_exists. eauto.
Qed.

Lemma update_run_disconnected (task_id : string)
    (body : UpdateTaskStatusRequest) :
  update_task_status task_id body None
  = (Raise (HTTPException 500 "Database not available"), None).
Proof. done. Qed.

Lemma update_run_malformed (d : database) (task_id : string)
    (body : UpdateTaskStatusRequest) :
  ObjectId_parse task_id = None →
  update_task_status task_id body (Some d)
  = (Raise (HTTPException 400 "Invalid task id"), Some d).
Proof.
  intros Hparse. unfold update_task_status. run_handler. by rewrite Hparse.
Qed.

Lemma update_run_miss (d : database) (task_id : string)
    (body : UpdateTaskStatusRequest) (oid : ObjectId) :
  ObjectId_parse task_id = Some oid →
  (∀ r, r ∈ collection d "task" → _id r ≠ oid) →
  update_task_status task_id body (Some d)
  = (Raise (HTTPException 404 "Task not found"), Some d).
Proof.
  intros Hparse Hmiss. unfold update_task_status, db_update_one. run_handler.
  rewrite Hparse, update_one_miss by done.
  rewrite decide_True by done. by rewrite decide_True.
Qed.

Lemma update_run_hit (d : database) (task_id : string)
    (body : UpdateTaskStatusRequest) (oid : ObjectId)
    (pre post : list record) (r : record) :
  ObjectId_parse task_id = Some oid →
  collection d "task" = pre ++ r :: post →
  _id r = oid → (∀ x, x ∈ pre → _id x ≠ oid) →
  update_task_status task_id body (Some d)
  = (Return {| updated_id := task_id; updated_status := status body |},
     Some (<["task" := pre ++ apply_set {["status" := VStr (status body)]} r
                         :: post]> d)).
Proof.
  intros Hparse Hc Hr Hpre. unfold update_task_status, db_update_one.
  run_handler. rewrite Hparse, Hc, update_one_hit by done.
  rewrite decide_False by done. by rewrite decide_False.
Qed.

(** X4: the handler answers by a fixed order of checks.  Without a
    connection the answer is 500, whatever the identifier text; with one,
    a text the identifier parser rejects is answered 400; a text it accepts
    is answered 404 when no stored task carries the identifier, and
    otherwise the handler returns the text and the new status.  Whenever
    the handler raises, the store is exactly as it was, and it returns
    exactly when there is a connection, the parser accepts the text and
    some stored task carries the identifier. *)
Theorem update_task_status_outcomes (db : option database) (task_id : string)
    (body : UpdateTaskStatusRequest) :
  match db with
  | None =>
      update_task_status task_id body db
      = (Raise (HTTPException 500 "Database not available"), None)
  | Some d =>
      match ObjectId_parse task_id with
      | None =>
          update_task_status task_id body db
          = (Raise (HTTPException 400 "Invalid task id"), Some d)
      | Some oid =>
          if decide (Exists (λ r, _id r = oid) (collection d "task"))
          then ∃ d', update_task_status task_id body db
                     = (Return {| updated_id := task_id;
                                  updated_status := status body |}, Some d')
          else update_task_status task_id body db
               = (Raise (HTTPException 404 "Task not found"), Some d)
      end
  end
  ∧ (∀ e db', update_task_status task_id body db = (Raise e, db') →
              db' = db)
  ∧ ((∃ resp db', update_task_status task_id body db = (Return resp, db'))
     ↔ ∃ d oid r, db = Some d ∧ ObjectId_parse task_id = Some oid
                  ∧ r ∈ collection d "task" ∧ _id r = oid).
Proof.
  destruct db as [d|].
  2:{ rewrite update_run_disconnected. split; [done|]. split.
      - by intros e db' [= <- <-].
      - split; [intros (? & ? & [=])|intros (? & ? & ? & [=] & _)]. }
  destruct (ObjectId_parse task_id) as [oid|] eqn:Hparse.
  2:{ rewrite update_run_malformed by done. split; [done|]. split.
      - by intros e db' [= <- <-].
      - split; [intros (? & ? & [=])|intros (? & ? & ? & _ & [=] & _)]. }
  destruct (id_cases (collection d "task") oid)
    as [Hmiss|(pre & r & post & Hc & Hr & Hpre)].
  - rewrite (update_run_miss _ _ _ oid) by done. split; [|split].
    + rewrite decide_False; [done|].
      intros (r & Hin & Hid)%Exists_exists. by destruct (Hmiss r Hin).
    + by intros e db' [= <- <-].
    + split; [intros (? & ? & [=])|].
      intros (d0 & oid0 & r & [= <-] & [= <-] & Hin & Hid).
      by destruct (Hmiss r Hin).
  - assert (r ∈ collection d "task") as Hin.
    { rewrite Hc. apply elem_of_app. right. left. }
    rewrite (update_run_hit _ _ _ oid pre post r) by done. split; [|split].
    + rewrite decide_True; [by eauto|]. apply Exists_exists. eauto.
    + intros e db' [=].
    + split; [|by eauto]. intros _. by exists d, oid, r.
Qed.

Lemma frame_refl (l : list record) :
  Forall2 (λ r r', _id r' = _id r
                   ∧ ∀ k, k ≠ "status" → fields r' !! k = fields r !! k) l l.
Proof. induction l; constructor; done. Qed.

(** X5: whatever its outcome, a status update keeps the connection state,
    and in every collection the same records at the same positions: each
    keeps its identifier and every field other than ["status"]; collections
    other than the task collection are untouched. *)
Theorem update_task_status_frame (db : option database) (task_id : string)
    (body : UpdateTaskStatusRequest) :
  match db, (update_task_status task_id body db).2 with
  | Some d, Some d' =>
      (∀ name, Forall2 (λ r r', _id r' = _id r
                                ∧ ∀ k, k ≠ "status" →
                                       fields r' !! k = fields r !! k)
                 (collection d name) (collection d' name))
      ∧ (∀ name, name ≠ "task" → collection d' name = collection d name)
  | None, None => True
  | _, _ => False
  end.
Proof.
  destruct db as [d|]; [|done].
  destruct (ObjectId_parse task_id) as [oid|] eqn:Hparse.
  2:{ rewrite update_run_malformed by done. simpl.
      split; [intros; apply frame_refl|done]. }
  destruct (id_cases (collection d "task") oid)
    as [Hmiss|(pre & r & post & Hc & Hr & Hpre)].
  - rewrite (update_run_miss _ _ _ oid) by done. simpl.
    split; [intros; apply frame_refl|done].
  - rewrite (update_run_hit _ _ _ oid pre post r) by done. simpl. split.
    + intros name. unfold collection at 2.
      destruct (decide (name = "task")) as [->|Hname].
      * rewrite lookup_insert_eq, Hc. simpl.
        apply Forall2_app; [apply frame_refl|].
        constructor; [|apply frame_refl].
        split; [done|]. intros k Hk. simpl.
        rewrite <- insert_union_singleton_l. by rewrite lookup_insert_ne.
      * rewrite lookup_insert_ne by done. apply frame_refl.
    + intros name Hname. unfold collection.
      by rewrite lookup_insert_ne.
Qed.

(** X6: a second status update of the same task overrides the first: running
    the handler with one status and then with another gives the answer and
    the store of running it with the second alone.  In particular the same
    update twice is the same as once. *)
Theorem update_task_status_last_wins (db : option database)
    (task_id : string) (first second : UpdateTaskStatusRequest) :
  update_task_status task_id second
    (update_task_status task_id first db).2
  = update_task_status task_id second db.
Proof.
  destruct db as [d|]; [|done].
  destruct (ObjectId_parse task_id) as [oid|] eqn:Hparse.
  2:{ by rewrite (update_run_malformed d task_id first). }
  destruct (id_cases (collection d "task") oid)
    as [Hmiss|(pre & r & post & Hc & Hr & Hpre)].
  - by rewrite (update_run_miss d task_id first oid).
  - rewrite (update_run_hit d task_id first oid pre post r) by done.
    cbn [snd].
    rewrite (update_run_hit _ task_id second oid pre post
               (apply_set {["status" := VStr (status first)]} r)); try done.
    + rewrite (update_run_hit d task_id second oid pre post r) by done.
      rewrite insert_insert_eq. do 4 f_equal.
      unfold apply_set. cbn [_id fields].
      rewrite <- !insert_union_singleton_l. by rewrite insert_insert_eq.
    + unfold collection. by rewrite lookup_insert_eq.
Qed.

(** ** Dashboard summary: totality and bounds *)

(** X7: the dashboard summary never changes the store; without a connection
    it fails with status 500, and with one it always returns a summary (the
    lookup of ["_id"] in the projected rooms cannot fail). *)
Theorem dashboard_summary_total (db : option database)
    (workspace_id : string) :
  (dashboard_summary workspace_id db).2 = db
  ∧ match db with
    | None => (dashboard_summary workspace_id db).1
              = Raise (HTTPException 500 "Database not available")
    | Some _ => ∃ s, (dashboard_summary workspace_id db).1 = Return s
    end.
Proof.
  destruct db as [d|]; [|done].
  rewrite dashboard_run. split; [done|]. eauto.
Qed.

Lemma rate_of_bounds (a b : nat) :
  (a ≤ b)%nat → (0 ≤ rate_of a b ≤ 1)%Qc.
Proof.
  intros Hab. unfold rate_of. destruct (decide (b = 0%nat)) as [->|Hb].
  { split; [apply Qcle_refl|done]. }
  assert (Qc_of_Z 0 < Qc_of_Z (Z.of_nat b))%Qc as Hpos
    by (apply (proj1 (Z2Qc_inj_lt _ _)); lia).
  assert (Qc_of_Z 0 ≤ Qc_of_Z (Z.of_nat a))%Qc as Hnonneg
    by (apply (proj1 (Z2Qc_inj_le _ _)); lia).
  assert (Qc_of_Z (Z.of_nat a) ≤ Qc_of_Z (Z.of_nat b))%Qc as Hle
    by (apply (proj1 (Z2Qc_inj_le _ _)); lia).
  rewrite Z2Qc_inj_0 in Hpos, Hnonneg.
  unfold Qcdiv. split.
  - apply Qcmult_nonneg_nonneg; [done|].
    apply Qclt_le_weak. by apply Qcinv_pos.
  - rewrite <- (Qcmult_inv_r (Qc_of_Z (Z.of_nat b)))
      by (by apply Qclt_not_eq, not_eq_sym in Hpos).
    apply Qcmult_le_mono_nonneg_r; [|done].
    apply Qclt_le_weak. by apply Qcinv_pos.
Qed.

(** X8: in every summary the completed tasks are at most the tasks, each
    count is at most the size of its collection, and the completion rate
    lies between 0 and 1. *)
Theorem dashboard_summary_bounds (d : database) (workspace_id : string) :
  ∃ s, dashboard_summary workspace_id (Some d) = (Return s, Some d)
       ∧ (tasks_done s ≤ tasks s)%nat
       ∧ (rooms s ≤ length (collection d "room"))%nat
       ∧ (meetings s ≤ length (collection d "meeting"))%nat
       ∧ (tasks s ≤ length (collection d "task"))%nat
       ∧ (0 ≤ completion_rate s ≤ 1)%Qc.
Proof.
  eexists. split; [apply dashboard_run|]. cbn [rooms meetings tasks
    tasks_done completion_rate].
  split; [apply length_filter|].
  split; [apply length_filter|].
  split.
  { unfold dashboard_meetings, meetings_in_rooms.
    case_decide; [simpl; lia|apply length_filter]. }
  split.
  { unfold dashboard_tasks, tasks_of_meetings.
    case_decide; [done|apply length_filter]. }
  apply rate_of_bounds, length_filter.
Qed.

Lemma rate_of_extremes (a b : nat) :
  b ≠ 0%nat →
  (rate_of a b = 1%Qc ↔ a = b) ∧ (rate_of a b = 0%Qc ↔ a = 0%nat).
Proof.
  intros Hb. unfold rate_of. rewrite decide_False by done.
  assert (Qc_of_Z (Z.of_nat b) ≠ Qc_of_Z 0) as Hnz
    by (intros Heq%Z2Qc_inj; lia).
  rewrite Z2Qc_inj_0 in Hnz.
  split; split.
  - intros Hone. apply Nat2Z.inj, Z2Qc_inj.
    rewrite <- (Qcmult_div_r (Qc_of_Z (Z.of_nat a)) (Qc_of_Z (Z.of_nat b)))
      by done.
    by rewrite Hone, Qcmult_1_r.
  - intros ->. unfold Qcdiv. by apply Qcmult_inv_r.
  - intros Hzero. apply Nat2Z.inj, Z2Qc_inj.
    change (Z.of_nat 0) with 0. rewrite Z2Qc_inj_0.
    rewrite <- (Qcmult_div_r (Qc_of_Z (Z.of_nat a)) (Qc_of_Z (Z.of_nat b)))
      by done.
    rewrite Hzero. apply Qcmult_0_r.
  - intros ->. unfold Qcdiv. change (Z.of_nat 0) with 0.
    rewrite Z2Qc_inj_0. apply Qcmult_0_l.
Qed.

(** X9: when the summary counts at least one task, the completion rate is 1
    exactly when every counted task is done, and 0 exactly when none is. *)
Theorem dashboard_summary_rate_extremes (d : database)
    (workspace_id : string) :
  ∃ s, dashboard_summary workspace_id (Some d) = (Return s, Some d)
       ∧ ((0 < tasks s)%nat →
          (completion_rate s = 1%Qc ↔ tasks_done s = tasks s)
          ∧ (completion_rate s = 0%Qc ↔ tasks_done s = 0%nat)).
Proof.
  eexists. split; [apply dashboard_run|].
  cbn [tasks tasks_done completion_rate].
  intros Hpos. apply rate_of_extremes. lia.
Qed.

(** ** A status update seen through the dashboard *)

Lemma tasks_of_meetings_filter (d : database) (ids : list string) :
  tasks_of_meetings d ids
  = filter (λ r, ids = [] ∨ field_among "meeting_id" ids r)
      (collection d "task").
Proof.
  unfold tasks_of_meetings. case_decide as Hids.
  - symmetry. apply filter_all. intros r _. by left.
  - apply list_filter_iff. intros r. tauto.
Qed.

Lemma count_split {A} (Q : A → Prop) `{!∀ a, Decision (Q a)}
    (pre post : list A) (x : A) :
  length (filter Q (pre ++ x :: post))
  = (length (filter Q pre) + (if decide (Q x) then 1 else 0)
     + length (filter Q post))%nat.
Proof.
  rewrite filter_app, filter_cons, length_app.
  destruct (decide (Q x)); simpl; lia.
Qed.

(** The summary of a store whose task collection was replaced: rooms and
    meetings are those of the old store. *)
Lemma dashboard_tasks_replaced (d : database) (c : list record) (w : string) :
  dashboard_rooms (<["task" := c]> d) w = dashboard_rooms d w
  ∧ dashboard_meetings (<["task" := c]> d) w = dashboard_meetings d w
  ∧ dashboard_tasks (<["task" := c]> d) w
    = filter (λ r, identifiers (dashboard_meetings d w) = []
                   ∨ field_among "meeting_id"
                       (identifiers (dashboard_meetings d w)) r) c.
Proof.
  assert (dashboard_rooms (<["task" := c]> d) w = dashboard_rooms d w)
    as Hrooms.
  { unfold dashboard_rooms, rooms_of_workspace, collection.
    by rewrite lookup_insert_ne. }
  assert (dashboard_meetings (<["task" := c]> d) w = dashboard_meetings d w)
    as Hmeetings.
  { unfold dashboard_meetings, meetings_in_rooms. rewrite Hrooms.
    unfold collection. by rewrite lookup_insert_ne. }
  split; [done|]. split; [done|].
  unfold dashboard_tasks. rewrite tasks_of_meetings_filter, Hmeetings.
  unfold collection. by rewrite lookup_insert_eq.
Qed.

Lemma field_among_set_status (ids : list string) (s : string) (r : record) :
  field_among "meeting_id" ids (apply_set {["status" := VStr s]} r)
  ↔ field_among "meeting_id" ids r.
Proof.
  unfold field_among, apply_set. cbn [fields].
  rewrite <- insert_union_singleton_l. by rewrite lookup_insert_ne.
Qed.

(** X10: a status update, whatever its outcome, leaves the room, meeting and
    task counts of every dashboard summary as they were. *)
Theorem status_update_keeps_counts (d : database) (task_id : string)
    (body : UpdateTaskStatusRequest) (workspace_id : string) :
  ∃ d' s s',
    (update_task_status task_id body (Some d)).2 = Some d'
    ∧ dashboard_summary workspace_id (Some d) = (Return s, Some d)
    ∧ dashboard_summary workspace_id (Some d') = (Return s', Some d')
    ∧ rooms s' = rooms s ∧ meetings s' = meetings s ∧ tasks s' = tasks s.
Proof.
  destruct (ObjectId_parse task_id) as [oid|] eqn:Hparse.
  2:{ rewrite update_run_malformed by done.
      eexists d, _, _. split; [done|]. split; [apply dashboard_run|].
      by split; [apply dashboard_run|]. }
  destruct (id_cases (collection d "task") oid)
    as [Hmiss|(pre & r & post & Hc & Hr & Hpre)].
  { rewrite (update_run_miss _ _ _ oid) by done.
    eexists d, _, _. split; [done|]. split; [apply dashboard_run|].
    by split; [apply dashboard_run|]. }
  rewrite (update_run_hit _ _ _ oid pre post r) by done.
  eexists _, _, _. split; [done|]. split; [apply dashboard_run|].
  split; [apply dashboard_run|]. cbn [rooms meetings tasks].
  destruct (dashboard_tasks_replaced d
              (pre ++ apply_set {["status" := VStr (status body)]} r :: post)
              workspace_id) as (-> & -> & ->).
  split; [done|]. split; [done|].
  unfold dashboard_tasks. rewrite tasks_of_meetings_filter, Hc.
  rewrite !count_split. do 2 f_equal.
  destruct (decide _) as [Hnew|Hnew], (decide _) as [Hold|Hold]; try done;
    rewrite field_among_set_status in Hnew; tauto.
Qed.

(** X11: when the task that is updated is one the summary of a workspace
    counts, the count of completed tasks moves with the status: it loses
    one if the task was done and gains one if the new status is ["done"]. *)
Theorem status_update_moves_done_count (d : database) (task_id : string)
    (body : UpdateTaskStatusRequest) (oid : ObjectId)
    (pre post : list record) (r : record) (workspace_id : string) :
  ObjectId_parse task_id = Some oid →
  collection d "task" = pre ++ r :: post →
  _id r = oid →
  (∀ x, x ∈ pre → _id x ≠ oid) →
  r ∈ dashboard_tasks d workspace_id →
  ∃ d' s s',
    update_task_status task_id body (Some d)
    = (Return {| updated_id := task_id; updated_status := status body |},
       Some d')
    ∧ dashboard_summary workspace_id (Some d) = (Return s, Some d)
    ∧ dashboard_summary workspace_id (Some d') = (Return s', Some d')
    ∧ (tasks_done s' + (if decide (is_done r) then 1 else 0)
       = tasks_done s + (if decide (status body = "done") then 1 else 0))%nat.
Proof.
  intros Hparse Hc Hr Hpre Hin.
  eexists _, _, _. split; [by apply (update_run_hit _ _ _ oid pre post r)|].
  split; [apply dashboard_run|]. split; [apply dashboard_run|].
  cbn [tasks_done].
  destruct (dashboard_tasks_replaced d
              (pre ++ apply_set {["status" := VStr (status body)]} r :: post)
              workspace_id) as (_ & _ & ->).
  unfold dashboard_tasks in *. rewrite tasks_of_meetings_filter in *.
  apply list_elem_of_filter in Hin as [Hcounted _].
  rewrite Hc, !list_filter_filter, !count_split.
  assert (is_done (apply_set {["status" := VStr (status body)]} r)
          ↔ status body = "done") as Hdone.
  { unfold is_done, apply_set. cbn [fields].
    rewrite <- insert_union_singleton_l, lookup_insert_eq.
    split; [by intros [= ->]|by intros ->]. }
  repeat destruct (decide _) as [?|?];
    rewrite ?field_among_set_status in *; try tauto; lia.
Qed.

Lemma filter_none {A} (P : A → Prop) `{!∀ a, Decision (P a)} (l : list A) :
  (∀ a, a ∈ l → ¬ P a) → filter P l = [].
Proof.
  induction l as [|a l IH]; intros HP; [done|].
  rewrite filter_cons_False by (apply HP; left).
  apply IH. intros b Hb. apply HP. by right.
Qed.

(** X15: for a workspace that has no room (an unknown workspace, for one),
    the summary reports no room and no meeting, yet counts every task of
    the store and every completed one among them. *)
Theorem dashboard_summary_without_rooms (d : database)
    (workspace_id : string) :
  (∀ r, r ∈ collection d "room" →
        fields r !! "workspace_id" ≠ Some (VStr workspace_id)) →
  ∃ s, dashboard_summary workspace_id (Some d) = (Return s, Some d)
       ∧ rooms s = 0%nat ∧ meetings s = 0%nat
       ∧ tasks s = length (collection d "task")
       ∧ tasks_done s = length (filter is_done (collection d "task")).
Proof.
  intros Hnone.
  assert (dashboard_rooms d workspace_id = []) as Hrooms.
  { unfold dashboard_rooms, rooms_of_workspace.
    apply filter_none. intros r Hr. by apply Hnone. }
  assert (dashboard_meetings d workspace_id = []) as Hmeetings.
  { unfold dashboard_meetings. by rewrite Hrooms. }
  assert (dashboard_tasks d workspace_id = collection d "task") as Htasks.
  { unfold dashboard_tasks. by rewrite Hmeetings. }
  eexists. split; [apply dashboard_run|].
  cbn [rooms meetings tasks tasks_done].
  by rewrite Hrooms, Hmeetings, Htasks.
Qed.

(** ** Create handlers: inputs that are rejected or replaced *)

(** X12: a meeting request whose date is accepted but whose duration is
    negative fails at the construction of the entity, with a validation
    error that the handler does not turn into a client error; nothing is
    stored. *)
Theorem create_meeting_negative_duration (req : CreateMeetingRequest)
    (new_id : ObjectId) (db : option database) (t : datetime) :
  fromisoformat (cm_scheduled_at req) = Some t →
  cm_duration_minutes req < 0 →
  create_meeting req new_id db
  = (Raise (ValidationError "duration_minutes"), db)
  ∧ is_client_error (ValidationError "duration_minutes") = false.
Proof.
  intros Hparse Hneg. split; [|done].
  unfold create_meeting, Meeting_init. rewrite Hparse. run_handler.
  rewrite decide_False by (simpl; lia). done.
Qed.

(** X13: in a task request an empty [due_date] is treated as no due date,
    without being parsed; a non-empty one that the parser rejects makes the
    handler fail with the parser's error and store nothing. *)
Theorem create_task_due_date (req : CreateTaskRequest) (new_id : ObjectId)
    (db : option database) :
  (ct_due_date req = Some "" →
   create_task req new_id db
   = create_task {| ct_meeting_id := ct_meeting_id req;
                    ct_title := ct_title req;
                    ct_assignee_user_id := ct_assignee_user_id req;
                    ct_due_date := None |} new_id db)
  ∧ (∀ s, ct_due_date req = Some s → s ≠ "" → fromisoformat s = None →
          create_task req new_id db = (Raise ValueError, db)).
Proof.
  split.
  - intros Hdue. unfold create_task. cbn [ct_meeting_id ct_title
      ct_assignee_user_id ct_due_date]. by rewrite Hdue.
  - intros s Hdue Hs Hparse. unfold create_task. rewrite Hdue.
    apply truthy_Some in Hs. rewrite Hs. simpl. rewrite Hparse.
    by run_handler.
Qed.

(** X14: the room type handed to the entity is never the empty string, and a
    request whose type is missing or empty is handled exactly like one
    whose type is ["online"]. *)
Theorem create_room_type_fallback (req : CreateRoomRequest)
    (new_id : ObjectId) (db : option database) :
  or_str (cr_type req) "online" ≠ ""
  ∧ (cr_type req = None ∨ cr_type req = Some "" →
     create_room req new_id db
     = create_room {| cr_workspace_id := cr_workspace_id req;
                      cr_name := cr_name req;
                      cr_type := Some "online";
                      cr_description := cr_description req |} new_id db).
Proof.
  split.
  - unfold or_str. destruct (cr_type req) as [s|]; [|done].
    destruct (truthy (Some s)) eqn:Hs; [|done].
    by apply truthy_Some in Hs.
  - intros [Htype|Htype]; unfold create_room; by rewrite Htype.
Qed.

End FurtherProperties.

(** ** The further properties on the example office *)

(** [status_update_moves_done_count]: marking the open task of workspace
    [w1] as done raises the count of completed tasks from one to two. *)
Lemma status_update_moves_done_count_witness :
  ObjectId_parse (Library := python) "64b0000000000000000000c2"
  = Some (example_id "c2")
  ∧ collection office "task"
    = [example_task "c1" "b1" "Write agenda" "done"]
      ++ example_task "c2" "b2" "Book room" "open"
      :: [example_task "c3" "b3" "Order parts" "done"]
  ∧ example_task "c2" "b2" "Book room" "open" ∈ dashboard_tasks office "w1"
  ∧ ∃ d' s s',
      update_task_status (H := python) "64b0000000000000000000c2"
        {| status := "done" |} (Some office)
      = (Return {| updated_id := "64b0000000000000000000c2";
                   updated_status := "done" |}, Some d')
      ∧ dashboard_summary (H := python) "w1" (Some office)
        = (Return s, Some office)
      ∧ dashboard_summary (H := python) "w1" (Some d') = (Return s', Some d')
      ∧ (tasks_done s' + 0 = tasks_done s + 1)%nat.
Proof.
  assert (example_task "c2" "b2" "Book room" "open"
          ∈ dashboard_tasks office "w1") as Hin.
  { assert (dashboard_tasks office "w1"
            = [example_task "c1" "b1" "Write agenda" "done";
               example_task "c2" "b2" "Book room" "open"]) as ->
      by (vm_compute; reflexivity).
    right. left. }
  split; [reflexivity|]. split; [reflexivity|]. split; [exact Hin|].
  apply (status_update_moves_done_count (H := python) office
           "64b0000000000000000000c2" {| status := "done" |}
           (example_id "c2")
           [example_task "c1" "b1" "Write agenda" "done"]
           [example_task "c3" "b3" "Order parts" "done"]
           (example_task "c2" "b2" "Book room" "open") "w1");
    [reflexivity|reflexivity|reflexivity| |exact Hin].
  intros x Hx. apply list_elem_of_singleton in Hx as ->. discriminate.
Defined.

(** [create_meeting_negative_duration] on a dated request of minus five
    minutes. *)
Lemma create_meeting_negative_duration_witness :
  fromisoformat (Library := python) "2024-05-01T10:30:00"
  = Some (mkDatetime 2024 5 1 10 30 0 0 None)
  ∧ -5 < 0
  ∧ create_meeting (H := python)
      {| cm_room_id := "r1"; cm_title := "Planning";
         cm_scheduled_at := "2024-05-01T10:30:00";
         cm_duration_minutes := -5; cm_host_user_id := "u1";
         cm_participant_user_ids := [] |} (example_id "b4") (Some office)
    = (Raise (ValidationError "duration_minutes"), Some office)
  ∧ is_client_error (ValidationError "duration_minutes") = false.
Proof.
  split; [reflexivity|]. split; [lia|].
  apply (create_meeting_negative_duration (H := python)
           {| cm_room_id := "r1"; cm_title := "Planning";
              cm_scheduled_at := "2024-05-01T10:30:00";
              cm_duration_minutes := -5; cm_host_user_id := "u1";
              cm_participant_user_ids := [] |} (example_id "b4")
           (Some office) (mkDatetime 2024 5 1 10 30 0 0 None));
    [reflexivity|simpl; lia].
Defined.

(** [create_task_due_date] on a request whose due date is plain words. *)
Lemma create_task_due_date_witness :
  "soon" ≠ ""
  ∧ fromisoformat (Library := python) "soon" = None
  ∧ create_task (H := python)
      {| ct_meeting_id := "m1"; ct_title := "Write agenda";
         ct_assignee_user_id := None; ct_due_date := Some "soon" |}
      (example_id "c4") (Some office)
    = (Raise ValueError, Some office).
Proof.
  split; [discriminate|]. split; [reflexivity|].
  destruct (create_task_due_date (H := python)
              {| ct_meeting_id := "m1"; ct_title := "Write agenda";
                 ct_assignee_user_id := None; ct_due_date := Some "soon" |}
              (example_id "c4") (Some office)) as [_ Hbad].
  apply (Hbad "soon"); [reflexivity|discriminate|reflexivity].
Defined.

(** [create_room_type_fallback] on a request without a type. *)
Lemma create_room_type_fallback_witness :
  create_room (H := python)
    {| cr_workspace_id := "w1"; cr_name := "Annex"; cr_type := None;
       cr_description := None |} (example_id "a4") (Some office)
  = create_room (H := python)
      {| cr_workspace_id := "w1"; cr_name := "Annex";
         cr_type := Some "online"; cr_description := None |}
      (example_id "a4") (Some office).
Proof.
  destruct (create_room_type_fallback (H := python)
              {| cr_workspace_id := "w1"; cr_name := "Annex";
                 cr_type := None; cr_description := None |}
              (example_id "a4") (Some office)) as [_ Hsame].
  apply Hsame. by left.
Defined.

(** [dashboard_summary_without_rooms] on a workspace the office does not
    have: all three tasks are counted. *)
Lemma dashboard_summary_without_rooms_witness :
  (∀ r, r ∈ collection office "room" →
        fields r !! "workspace_id" ≠ Some (VStr "w9"))
  ∧ ∃ s, dashboard_summary (H := python) "w9" (Some office)
         = (Return s, Some office)
         ∧ rooms s = 0%nat ∧ meetings s = 0%nat
         ∧ tasks s = 3%nat ∧ tasks_done s = 2%nat.
Proof.
  assert (∀ r, r ∈ collection office "room" →
               fields r !! "workspace_id" ≠ Some (VStr "w9")) as Hnone.
  { apply Forall_forall. repeat constructor; discriminate. }
  split; [exact Hnone|].
  destruct (dashboard_summary_without_rooms (H := python) office "w9" Hnone)
    as (s & Hrun & Hrooms & Hmeetings & Htasks & Hdone).
  exists s. split; [exact Hrun|].
  rewrite Hrooms, Hmeetings, Htasks, Hdone.
  repeat split; vm_compute; reflexivity.
Defined.


(** [listed_records_public_form] on the meetings of the first room of the
    office. *)
Lemma listed_records_public_form_witness :
  lists_records (H := python)
    (list_meetings (H := python) (Some (oid_hex (example_id "a1"))))
    office "meeting".
Proof.
  destruct (listed_records_public_form (H := python) office)
    as (_ & _ & Hmeetings & _).
  apply Hmeetings.
Defined.

(** What the caller gets for the first meeting of the office. *)
Example list_meetings_office :
  ∃ out, list_meetings (H := python) (Some (oid_hex (example_id "a1")))
           (Some office) = (Return [out], Some office)
         ∧ out !! "id" = Some (VStr "64b0000000000000000000b1")
         ∧ out !! "_id" = None
         ∧ out !! "scheduled_at" = Some (VStr "2024-05-01T10:30:00")
         ∧ out !! "title" = Some (VStr "Planning")
         ∧ out !! "participant_user_ids" = Some (VStrList ["u1"; "u2"]).
Proof.
  eexists. split; [rewrite list_meetings_run; reflexivity|].
  destruct (serialize_doc_public (H := python)
              (example_meeting "b1" "a1" "Planning"))
    as (Hid & Hnone & Hother).
  split; [exact Hid|]. split; [exact Hnone|].
  repeat split; rewrite Hother by done; reflexivity.
Qed.

(** A stored task with a field of its own named ["id"] comes back with that
    field replaced by the text of the identifier: the value stored under
    ["id"] is not passed through. *)
Lemma listed_record_loses_id_field :
  ∃ out, list_tasks (H := python) None None (Some labelled_store)
         = (Return [out], Some labelled_store)
         ∧ fields labelled_task !! "id" = Some (VStr "T-7")
         ∧ out !! "id" = Some (VStr "64b0000000000000000000c9")
         ∧ out !! "id" ≠ fields labelled_task !! "id".
Proof.
  eexists. split; [rewrite list_tasks_run; reflexivity|].
  destruct (serialize_doc_public (H := python) labelled_task)
    as (Hid & _ & _).
  split; [reflexivity|]. split; [exact Hid|].
  rewrite Hid. discriminate.
Qed.
